(** * Shishak document ingestion: PDF text extraction, OCR fallback and retrieval

    A shallow embedding of the extraction components of the mobile app
    ([PDFExtractor.tsx], [PDFOCRFallback.tsx]), of the two screens that
    consume them ([ai-test/pdf-qa.tsx] and the Ask screen), and of the
    lexical index and retriever described by the design document.

    React components are modelled as state machines: the component state
    ([useState] cells and [useRef] cells) is a record, every callback the
    host or a native view can invoke is an event, and every call the
    component makes to one of its callback props is an output. *)

From Stdlib Require Import NArith Ascii String DecimalString DecimalNat List Lia.
From stdpp Require Import gmap strings list fin_maps sorting.

(** ** JavaScript strings *)

(** A JavaScript string is a sequence of UTF-16 code units and [.length]
    counts code units; a string is a [list N] here, one number per unit. *)
Module Js.

Definition lit (s : string) : list N := N_of_ascii <$> list_ascii_of_string s.

(** [String(n)] and [`${n}`] for a non-negative integer [n]: its decimal
    digits. *)
Definition String_of_nat (n : nat) : list N :=
  lit (NilEmpty.string_of_uint (Nat.to_uint n)).

(** The code units [String.prototype.trim] strips: ECMAScript WhiteSpace
    (TAB, VT, FF, SP, NBSP, ZWNBSP and the Unicode space separators) and
    LineTerminator (LF, CR, LS, PS). *)
Definition whiteSpace : list N :=
  [9; 11; 12; 32; 160; 65279; 5760;
   8192; 8193; 8194; 8195; 8196; 8197; 8198; 8199; 8200; 8201; 8202;
   8239; 8287; 12288;
   10; 13; 8232; 8233]%N.

Definition isWhiteSpace (c : N) : bool := bool_decide (c ∈ whiteSpace).

Fixpoint trimStart (s : list N) : list N :=
  match s with
  | c :: s' => if isWhiteSpace c then trimStart s' else s
  | [] => []
  end.

Definition trimEnd (s : list N) : list N := rev (trimStart (rev s)).

Definition trim (s : list N) : list N := trimEnd (trimStart s).

(** Truthiness of a string in a condition: the empty string is falsy. *)
Definition truthy (s : list N) : bool :=
  match s with [] => false | _ :: _ => true end.

(** [x || d] where [x] is a string or [undefined]. *)
Definition orElse (x : option (list N)) (d : list N) : list N :=
  match x with
  | Some s => if truthy s then s else d
  | None => d
  end.

(** [Array.prototype.join]. *)
Fixpoint join (sep : list N) (xs : list (list N)) : list N :=
  match xs with
  | [] => []
  | [x] => x
  | x :: rest => x ++ sep ++ join sep rest
  end.

(** A thrown value; only its [message] is ever read. *)
Record JsError := { message : list N }.

(** The completion of a call: it returns or it throws. *)
Inductive completion (A : Type) :=
| Normal (a : A)
| Throw (e : JsError).
Arguments Normal {A} a.
Arguments Throw {A} e.

End Js.

(** ** PDFOCRFallback.tsx *)

Module OCRFallback.
Import Js.

(** The argument of [onComplete]. *)
Record Result := {
  success : bool;
  text : list N;
  pageCount : nat;
  error : option (list N) }.

(** The variables a running [processCurrentPage] has closed over: the
    [currentPage] and [totalPages] of the render that started it. *)
Record Closure := { cl_currentPage : nat; cl_totalPages : nat }.

(** [useState] cells [currentPage], [totalPages], [processing],
    [pageReady]; [useRef] cells [hasCompleted] and [extractedTextsRef];
    [running] holds the closure of the [processCurrentPage] call that is
    suspended at one of its [await]s, if there is one.  ([displayCount]
    only feeds the debug view and is left out.) *)
Record State := {
  currentPage : nat;
  totalPages : nat;
  processing : bool;
  pageReady : bool;
  hasCompleted : bool;
  extractedTexts : list (list N);
  running : option Closure }.

Definition initial : State :=
  {| currentPage := 1; totalPages := 0; processing := false;
     pageReady := false; hasCompleted := false; extractedTexts := [];
     running := None |}.

(** What one pass through the [try] block of [processCurrentPage] does. *)
Inductive PageOutcome :=
| NoViewShot                       (* viewShotRef.current is null *)
| CaptureRejects (e : JsError)     (* captureRef rejects *)
| RecognizeRejects (e : JsError)   (* extractTextFromImageWithMLKit rejects *)
| Recognized (pageText : list N).  (* both resolve *)

(** What the [Pdf] view and the timers can do to the component.
    [PageChanged] is the 300 ms timer of [handlePageChanged] firing;
    [PdfError m] is [onError(error)] with [m] the value of
    [error?.message]; [PageDone o] resumes the suspended
    [processCurrentPage] and runs it to its end. *)
Inductive Event :=
| LoadComplete (numberOfPages : nat)
| PageChanged (page : nat)
| PdfError (message : option (list N))
| PageDone (o : PageOutcome).

(** [ProcessPage p n]: [processCurrentPage] has been entered for page [p]
    (its status line reads "Processing page p of n").
    [OnComplete r]: the [onComplete] prop has been called with [r]. *)
Inductive Output :=
| ProcessPage (page pagesToProcess : nat)
| OnComplete (r : Result).

Definition set_hasCompleted (st : State) : State :=
  {| currentPage := currentPage st; totalPages := totalPages st;
     processing := processing st; pageReady := pageReady st;
     hasCompleted := true; extractedTexts := extractedTexts st;
     running := running st |}.

Definition set_totalPages (n : nat) (st : State) : State :=
  {| currentPage := currentPage st; totalPages := n;
     processing := processing st; pageReady := pageReady st;
     hasCompleted := hasCompleted st; extractedTexts := extractedTexts st;
     running := running st |}.

Definition set_pageReady (b : bool) (st : State) : State :=
  {| currentPage := currentPage st; totalPages := totalPages st;
     processing := processing st; pageReady := b;
     hasCompleted := hasCompleted st; extractedTexts := extractedTexts st;
     running := running st |}.

Definition set_currentPage (p : nat) (st : State) : State :=
  {| currentPage := p; totalPages := totalPages st;
     processing := processing st; pageReady := pageReady st;
     hasCompleted := hasCompleted st; extractedTexts := extractedTexts st;
     running := running st |}.

Definition set_extractedTexts (ts : list (list N)) (st : State) : State :=
  {| currentPage := currentPage st; totalPages := totalPages st;
     processing := processing st; pageReady := pageReady st;
     hasCompleted := hasCompleted st; extractedTexts := ts;
     running := running st |}.

(** [setProcessing(b)] together with the suspended call it brackets. *)
Definition set_processing (b : bool) (r : option Closure) (st : State) : State :=
  {| currentPage := currentPage st; totalPages := totalPages st;
     processing := b; pageReady := pageReady st;
     hasCompleted := hasCompleted st; extractedTexts := extractedTexts st;
     running := r |}.

(** [`--- Page ${currentPage} ---\n${pageText}`] *)
Definition pageEntry (page : nat) (pageText : list N) : list N :=
  lit "--- Page " ++ String_of_nat page ++ lit " ---" ++ [10%N] ++ pageText.


Section Component.
Variable maxPages : nat.

(** [finishExtraction], called from a [processCurrentPage] whose render
    saw [total] pages. *)
Definition finishExtraction (total : nat) (st : State) : State * list Output :=
  if hasCompleted st then (st, [])
  else
    let combinedText := join [10; 10]%N (extractedTexts st) in
    let ok := 50 <? length combinedText in
    (set_hasCompleted st,
     [OnComplete
        {| success := ok;
           text := combinedText;
           pageCount := Nat.min total maxPages;
           error := if ok then None
                    else Some (lit "OCR could not extract meaningful text from the PDF") |}]).

(** [processCurrentPage] up to its first [await]. *)
Definition processCurrentPage_start (st : State) : State * list Output :=
  if hasCompleted st then (st, [])
  else
    (set_processing true
       (Some {| cl_currentPage := currentPage st; cl_totalPages := totalPages st |}) st,
     [ProcessPage (currentPage st) (Nat.min (totalPages st) maxPages)]).

(** The [try] block: what the page adds to [extractedTextsRef.current].
    A rejection is caught and logged; it adds nothing. *)
Definition tryPage (page : nat) (o : PageOutcome) (texts : list (list N)) : list (list N) :=
  match o with
  | Recognized pageText =>
      if truthy (trim pageText) then texts ++ [pageEntry page pageText] else texts
  | NoViewShot | CaptureRejects _ | RecognizeRejects _ => texts
  end.

(** [processCurrentPage] from its [await]s to its end. *)
Definition processCurrentPage_resume (cl : Closure) (o : PageOutcome) (st : State)
  : State * list Output :=
  let st1 := set_extractedTexts (tryPage (cl_currentPage cl) o (extractedTexts st)) st in
  let st2 := set_pageReady false (set_processing false None st1) in
  let pagesToProcess := Nat.min (cl_totalPages cl) maxPages in
  if cl_currentPage cl <? pagesToProcess
  then (set_currentPage (cl_currentPage cl + 1) st2, [])
  else finishExtraction (cl_totalPages cl) st2.

Definition handleLoadComplete (numberOfPages : nat) (st : State) : State * list Output :=
  (set_totalPages numberOfPages st, []).

Definition handlePageChanged (page : nat) (st : State) : State * list Output :=
  (set_pageReady true st, []).

Definition handleError (message : option (list N)) (st : State) : State * list Output :=
  if hasCompleted st then (st, [])
  else
    (set_hasCompleted st,
     [OnComplete
        {| success := false;
           text := [];
           pageCount := 0;
           error := Some (lit "Failed to render PDF for OCR: "
                          ++ orElse message (lit "Unknown error")) |}]).

(** The body of the [useEffect] that starts page processing. *)
Definition effect (st : State) : State * list Output :=
  if negb (pageReady st) || processing st || hasCompleted st then (st, [])
  else if totalPages st =? 0 then (st, [])
  else processCurrentPage_start st.

(** The effect's dependency array is [pageReady, currentPage, totalPages]. *)
Definition depsChanged (old new : State) : bool :=
  negb (Bool.eqb (pageReady old) (pageReady new)
        && (currentPage old =? currentPage new)
        && (totalPages old =? totalPages new)).

Definition handle (ev : Event) (st : State) : State * list Output :=
  match ev with
  | LoadComplete n => handleLoadComplete n st
  | PageChanged p => handlePageChanged p st
  | PdfError m => handleError m st
  | PageDone o =>
      match running st with
      | Some cl => processCurrentPage_resume cl o st
      | None => (st, [])
      end
  end.

(** One event: the handler runs, the component re-renders, and the effect
    runs if one of its dependencies changed. *)
Definition step (st : State) (ev : Event) : State * list Output :=
  let '(st1, out1) := handle ev st in
  if depsChanged st st1
  then let '(st2, out2) := effect st1 in (st2, out1 ++ out2)
  else (st1, out1).

Fixpoint run (st : State) (evs : list Event) : State * list Output :=
  match evs with
  | [] => (st, [])
  | ev :: evs' =>
      let '(st1, out1) := step st ev in
      let '(st2, out2) := run st1 evs' in
      (st2, out1 ++ out2)
  end.

(** The [Pdf] view and the native adapters, closed into a loop with the
    component: as long as the component has not completed, the view shows
    page [currentPage] and reports it ([PageChanged]), and the page
    processing that this starts ends with the outcome [outcomes] assigns
    to that page. *)
Fixpoint drive (outcomes : nat → PageOutcome) (fuel : nat) (st : State)
  : State * list Output :=
  match fuel with
  | 0 => (st, [])
  | S fuel' =>
      if hasCompleted st then (st, [])
      else
        let p := currentPage st in
        let '(st1, out1) := run st [PageChanged p; PageDone (outcomes p)] in
        let '(st2, out2) := drive outcomes fuel' st1 in
        (st2, out1 ++ out2)
  end.

(** A whole OCR pass over a document of [numberOfPages] pages. *)
Definition session (numberOfPages : nat) (outcomes : nat → PageOutcome) (fuel : nat)
  : State * list Output :=
  let '(st0, out0) := step initial (LoadComplete numberOfPages) in
  let '(st1, out1) := drive outcomes fuel st0 in
  (st1, out0 ++ out1).

End Component.

Definition pagesProcessed (outs : list Output) : list nat :=
  omap (λ o, match o with ProcessPage p _ => Some p | OnComplete _ => None end) outs.

Definition completions (outs : list Output) : list Result :=
  omap (λ o, match o with OnComplete r => Some r | ProcessPage _ _ => None end) outs.

(** The state between two pages of an undisturbed pass: page [p] is the
    current page, nothing is running and the page is not yet reported. *)
Definition betweenPages (p n : nat) (texts : list (list N)) : State :=
  {| currentPage := p; totalPages := n; processing := false;
     pageReady := false; hasCompleted := false; extractedTexts := texts;
     running := None |}.

(** What the pages [pages] add to the accumulator, in order. *)
Definition contributions (outcomes : nat → PageOutcome) (pages : list nat)
  : list (list N) :=
  pages ≫= λ p, tryPage p (outcomes p) [].

(** The events the [Pdf] view can send for a document of [n] pages: its
    page count, when reported, is [n]. *)
Definition eventFor (n : nat) (ev : Event) : Prop :=
  match ev with
  | LoadComplete m => m = n
  | PageChanged _ | PdfError _ | PageDone _ => True
  end.

(** The invariant of every run over a document of [n] pages, when [k]
    pages have been entered: a running [processCurrentPage] is the one
    for page [k]; otherwise, unless the component has completed, page
    [k + 1] is the current one and lies within the pages to process. *)
Definition inOrder (maxPages n k : nat) (st : State) : Prop :=
  (totalPages st = 0 ∨ totalPages st = n)
  ∧ k ≤ Nat.max 1 (Nat.min n maxPages)
  ∧ match running st with
    | Some cl =>
        processing st = true ∧ cl_currentPage cl = k ∧ cl_totalPages cl = n
        ∧ currentPage st = k ∧ 1 ≤ k
    | None =>
        processing st = false
        ∧ (hasCompleted st = false →
           currentPage st = k + 1 ∧ k + 1 ≤ Nat.max 1 (Nat.min n maxPages))
    end.

(** A fault inside the [try] block: a capture or a recognition that
    rejects. *)
Definition isFault (o : PageOutcome) : bool :=
  match o with
  | CaptureRejects _ | RecognizeRejects _ => true
  | NoViewShot | Recognized _ => false
  end.

End OCRFallback.

(** ** PDFExtractor.tsx *)

Module Extractor.
Import Js.

(** The argument of [onExtracted]; [error] is absent on success. *)
Record PDFJSExtractionResult := {
  success : bool;
  text : list N;
  error : option (list N);
  charCount : nat }.

(** The three functions the component imports from
    [services/ai/PDFJSExtractorService], whose file is not among the
    sources: they are parameters of the component.  Each may throw (the
    component wraps every call in a [try]). *)
Class PDFJSExtractorService := {
  generatePDFExtractorHTMLOffline : list N → completion (list N);
  generatePDFExtractorHTMLOnline : list N → completion (list N);
  parseExtractionResult : list N → completion PDFJSExtractionResult }.

Record Props := { pdfBase64 : list N; forceOnline : bool }.

(** [hasExtracted] is the [useRef] guard; [html], [loading], [loadError]
    are [useState] cells.  [mounted] holds the [let mounted] of every run
    of the effect, oldest first: each run declares a variable of its own,
    and its [loadHTML] and its cleanup close over that one. *)
Record State := {
  hasExtracted : bool;
  mounted : list bool;
  html : option (list N);
  loading : bool;
  loadError : option (list N) }.

Definition initial : State :=
  {| hasExtracted := false; mounted := []; html := None;
     loading := true; loadError := None |}.

(** The calls of [onExtracted].  The optional [onStatus], which only
    feeds the host's status line, is not recorded. *)
Inductive Output :=
| OnExtracted (r : PDFJSExtractionResult).

(** Handlers run in a monad of state, outputs and exceptions: a handler
    that throws keeps the state changes and outputs made before. *)
Definition M (A : Type) : Type := State → completion A * (State * list Output).

Definition ret {A} (a : A) : M A := λ st, (Normal a, (st, [])).

Definition bind {A B} (m : M A) (k : A → M B) : M B := λ st,
  match m st with
  | (Normal a, (st1, out1)) =>
      let '(r, (st2, out2)) := k a st1 in (r, (st2, out1 ++ out2))
  | (Throw e, s) => (Throw e, s)
  end.

Definition call {A} (c : completion A) : M A := λ st, (c, (st, [])).

Definition tryCatch {A} (body : M A) (handler : JsError → M A) : M A := λ st,
  match body st with
  | (Throw e, (st1, out1)) =>
      let '(r, (st2, out2)) := handler e st1 in (r, (st2, out1 ++ out2))
  | (Normal a, s) => (Normal a, s)
  end.

Definition get : M State := λ st, (Normal st, (st, [])).

Definition modify (f : State → State) : M unit := λ st, (Normal tt, (f st, [])).

Definition onExtracted (r : PDFJSExtractionResult) : M unit :=
  λ st, (Normal tt, (st, [OnExtracted r])).

Declare Scope js_scope.
Delimit Scope js_scope with js.
Notation "'let*' x := m 'in' k" := (bind m (λ x, k))
  (at level 10, x name, m at level 100, k at level 200, only parsing) : js_scope.

Definition set_hasExtracted (b : bool) (st : State) : State :=
  {| hasExtracted := b; mounted := mounted st; html := html st;
     loading := loading st; loadError := loadError st |}.

Definition set_mounted (cells : list bool) (st : State) : State :=
  {| hasExtracted := hasExtracted st; mounted := cells; html := html st;
     loading := loading st; loadError := loadError st |}.

Definition set_html (h : list N) (st : State) : State :=
  {| hasExtracted := hasExtracted st; mounted := mounted st; html := Some h;
     loading := loading st; loadError := loadError st |}.

Definition set_loading (b : bool) (st : State) : State :=
  {| hasExtracted := hasExtracted st; mounted := mounted st; html := html st;
     loading := b; loadError := loadError st |}.

Definition set_loadError (e : option (list N)) (st : State) : State :=
  {| hasExtracted := hasExtracted st; mounted := mounted st; html := html st;
     loading := loading st; loadError := e |}.

(** The object literals passed to [onExtracted] on the error paths. *)
Definition failed (err : list N) : PDFJSExtractionResult :=
  {| success := false; text := []; error := Some err; charCount := 0 |}.

Section Component.
Context `{PDFJSExtractorService}.
Variable props : Props.

Open Scope js_scope.

(** The synchronous part of a run of the effect: a fresh [mounted],
    then the guard and the cells are reset. *)
Definition mountEffect : M unit :=
  modify (λ st, set_loadError None (set_loading true
                  (set_hasExtracted false
                     (set_mounted (mounted st ++ [true]) st)))).

(** [mounted] as the closures of effect run [g] (counted from 0) read it. *)
Definition mountedOf (g : nat) (st : State) : bool :=
  default false (mounted st !! g).

(** The inner [if]/[try] of [loadHTML] that computes [generatedHtml]. *)
Definition generateHtml : M (list N) :=
  if forceOnline props
  then call (generatePDFExtractorHTMLOnline (pdfBase64 props))
  else tryCatch (call (generatePDFExtractorHTMLOffline (pdfBase64 props)))
                (λ offlineError, call (generatePDFExtractorHTMLOnline (pdfBase64 props))).

(** The [loadHTML] launched by effect run [g]. *)
Definition loadHTML (g : nat) : M unit :=
  tryCatch
    (let* generatedHtml := generateHtml in
     let* st := get in
     if mountedOf g st
     then modify (λ st, set_loading false (set_html generatedHtml st))
     else ret tt)
    (λ error,
     let* st := get in
     if mountedOf g st
     then let* _ := modify (λ st, set_loading false (set_loadError (Some (message error)) st)) in
          onExtracted (failed (lit "Failed to initialize PDF.js: " ++ message error))
     else ret tt).

(** The cleanup React calls, that of the latest run of the effect: it
    clears that run's [mounted]. *)
Definition unmount : M unit :=
  modify (λ st, set_mounted (<[pred (length (mounted st)) := false]> (mounted st)) st).

Definition handleMessage (data : list N) : M unit :=
  let* st := get in
  if hasExtracted st then ret tt
  else
    tryCatch
      (let* result := call (parseExtractionResult data) in
       let* _ := modify (set_hasExtracted true) in
       onExtracted result)
      (λ error, onExtracted (failed (lit "Failed to parse extraction result"))).

(** [description] is [nativeEvent.description]. *)
Definition handleError (description : option (list N)) : M unit :=
  let* st := get in
  if hasExtracted st then ret tt
  else
    let* _ := modify (set_hasExtracted true) in
    onExtracted (failed (lit "WebView failed to load: "
                         ++ orElse description (lit "Unknown error"))).

(** The component returns the [WebView] only past both early returns:
    not [loading], no [loadError], and a non-empty [html]. *)
Definition webViewRendered (st : State) : bool :=
  negb (loading st)
  && negb (truthy (default [] (loadError st)))
  && truthy (default [] (html st)).

(** [Mount]: a run of the effect starts.  [LoadHTML g]: the [loadHTML]
    launched by run [g] runs to its end.  [Unmount]: the cleanup of the
    latest run, which React calls before the effect runs again and when
    the component goes away.  [Message] and [WebViewError] come from the
    [WebView], so only while it is rendered. *)
Inductive Event :=
| Mount
| LoadHTML (g : nat)
| Unmount
| Message (data : list N)
| WebViewError (description : option (list N)).

Definition step (ev : Event) : M unit :=
  match ev with
  | Mount => mountEffect
  | LoadHTML g => loadHTML g
  | Unmount => unmount
  | Message data =>
      let* st := get in if webViewRendered st then handleMessage data else ret tt
  | WebViewError d =>
      let* st := get in if webViewRendered st then handleError d else ret tt
  end.

Fixpoint run (evs : list Event) : M unit :=
  match evs with
  | [] => ret tt
  | ev :: evs' => let* _ := step ev in run evs'
  end.

End Component.

Definition callbacks (outs : list Output) : list PDFJSExtractionResult :=
  (λ o, match o with OnExtracted r => r end) <$> outs.

(** The events that come from the [WebView]. *)
Definition fromWebView (ev : Event) : Prop :=
  match ev with
  | Message _ | WebViewError _ => True
  | Mount | LoadHTML _ | Unmount => False
  end.

(** A service to run the component on examples: the bundled assets are
    missing, the CDN page is generated, and a message that does not start
    with a brace is rejected the way [JSON.parse] rejects it. *)
Definition exampleService : PDFJSExtractorService :=
  {| generatePDFExtractorHTMLOffline _ :=
       Throw {| message := lit "Asset not found" |};
     generatePDFExtractorHTMLOnline pdf := Normal (lit "<html>" ++ pdf);
     parseExtractionResult data :=
       match data with
       | 123%N :: _ =>
           Normal {| success := true; text := data; error := None;
                     charCount := length data |}
       | _ => Throw {| message := lit "Unexpected token in JSON" |}
       end |}.

(** A service whose every call throws. *)
Definition brokenService : PDFJSExtractorService :=
  {| generatePDFExtractorHTMLOffline _ := Throw {| message := lit "Asset not found" |};
     generatePDFExtractorHTMLOnline _ := Throw {| message := lit "Out of memory" |};
     parseExtractionResult _ := Throw {| message := lit "Unexpected token in JSON" |} |}.

(** What the error paths promise about the result they deliver. *)
Definition isFailure (r : PDFJSExtractionResult) (msg : list N) : Prop :=
  success r = false ∧ text r = [] ∧ error r = Some msg ∧ msg ≠ [].

End Extractor.

(** ** The two screens that host the extractor *)

Module Screens.
Import Js.

(** [PDFDocument] of [types/ai.types]: the fields the screens read. *)
Record PDFDocument := {
  id : list N;
  name : list N;
  pageCount : nat;
  size : nat }.

(** [PDFQAService.getInstance()]: [createFromText(text, name)] and
    [getRAGStats()], of whose answer the Ask screen reads [totalChunks]
    if there is one.  The service is not among the sources and each call
    may throw. *)
Class PDFQAService := {
  createFromText : list N → list N → completion PDFDocument;
  getRAGStats : completion (option nat) }.

(** What a handler does to the outside: the service call it makes and the
    alert it shows. *)
Inductive Effect :=
| CreateFromText (text name : list N)
| Alert (title message : list N).

(** A service to run the screens on examples. *)
Definition exampleQAService : PDFQAService :=
  {| createFromText text name :=
       Normal {| id := lit "doc-1"; name := name; pageCount := 1;
                 size := length text |};
     getRAGStats := Normal (Some 1) |}.

Definition accepted (effs : list Effect) : list (list N) :=
  omap (λ e, match e with CreateFromText t _ => Some t | Alert _ _ => None end) effs.

Definition alerts (effs : list Effect) : list (list N) :=
  omap (λ e, match e with Alert t _ => Some t | CreateFromText _ _ => None end) effs.

(** [result.success && result.text.length > 50] *)
Definition viable (result : Extractor.PDFJSExtractionResult) : bool :=
  Extractor.success result && (50 <? length (Extractor.text result)).

(** *** app/ai-test/pdf-qa.tsx *)
Module PdfQa.

Record State := {
  activeDoc : option PDFDocument;
  processing : bool;
  pdfBase64 : option (list N);
  pendingPdfName : list N }.

Definition set_activeDoc (d : PDFDocument) (st : State) : State :=
  {| activeDoc := Some d; processing := processing st;
     pdfBase64 := pdfBase64 st; pendingPdfName := pendingPdfName st |}.

(** The "Clean up" lines that end the handler. *)
Definition cleanUp (st : State) : State :=
  {| activeDoc := activeDoc st; processing := false;
     pdfBase64 := None; pendingPdfName := [] |}.

Definition couldNotExtract : list N :=
  lit "Could not extract text. The PDF may be image-based." ++ [10; 10]%N
  ++ lit "Try using " ++ [34%N] ++ lit "Scan with Camera" ++ [34%N] ++ lit " instead.".

(** The alert of the [else] branch offers a "Use Camera" button; the
    camera scan it starts when pressed is a separate handler. *)
Definition handlePDFJSExtraction `{PDFQAService}
    (result : Extractor.PDFJSExtractionResult) (st : State) : State * list Effect :=
  let '(st1, effs) :=
    if Extractor.success result && (50 <? length (Extractor.text result)) then
      match createFromText (Extractor.text result) (pendingPdfName st) with
      | Normal doc =>
          (set_activeDoc doc st,
           [CreateFromText (Extractor.text result) (pendingPdfName st)])
      | Throw e =>
          (st,
           [CreateFromText (Extractor.text result) (pendingPdfName st);
            Alert (lit "Error") (lit "Failed to process extracted text: " ++ message e)])
      end
    else
      (st, [Alert (lit "PDF Extraction Issue")
                  (orElse (Extractor.error result) couldNotExtract)])
  in (cleanUp st1, effs).

End PdfQa.

(** *** The Ask screen (the screen that mounts [PDFOCRFallback]) *)
Module Ask.

Record State := {
  activeDoc : option PDFDocument;
  processing : bool;
  pdfBase64 : option (list N);
  pendingPdfName : list N;
  pendingPdfUri : list N;
  useOCRFallback : bool }.

Definition set_activeDoc (d : PDFDocument) (st : State) : State :=
  {| activeDoc := Some d; processing := processing st;
     pdfBase64 := pdfBase64 st; pendingPdfName := pendingPdfName st;
     pendingPdfUri := pendingPdfUri st; useOCRFallback := useOCRFallback st |}.

(** [setPdfBase64(null); setUseOCRFallback(true)] *)
Definition triggerOCR (st : State) : State :=
  {| activeDoc := activeDoc st; processing := processing st;
     pdfBase64 := None; pendingPdfName := pendingPdfName st;
     pendingPdfUri := pendingPdfUri st; useOCRFallback := true |}.

Definition cleanUp (st : State) : State :=
  {| activeDoc := activeDoc st; processing := false;
     pdfBase64 := None; pendingPdfName := [];
     pendingPdfUri := []; useOCRFallback := useOCRFallback st |}.

(** [{useOCRFallback && pendingPdfUri && <PDFOCRFallback maxPages={10} />}] *)
Definition ocrFallbackMounted (st : State) : bool :=
  useOCRFallback st && truthy (pendingPdfUri st).

Definition ocrMaxPages : nat := 10.

Section Handlers.
Context `{PDFQAService}.

(** [needsOCRFallback] of [services/ai/SmartPDFPipeline], whose file is
    not among the sources: a parameter of the handler. *)
Variable needsOCRFallback : Extractor.PDFJSExtractionResult → bool.

(** Inside the [try], [getRAGStats] is awaited between [createFromText]
    and [setActiveDoc]: when it throws, the [catch] shows the alert and
    the document is not made the active one. *)
Definition handlePDFJSExtraction
    (result : Extractor.PDFJSExtractionResult) (st : State) : State * list Effect :=
  if needsOCRFallback result then (triggerOCR st, [])
  else if Extractor.success result && (50 <? length (Extractor.text result)) then
    match createFromText (Extractor.text result) (pendingPdfName st) with
    | Normal doc =>
        match getRAGStats with
        | Normal ragStats =>
            (cleanUp (set_activeDoc doc st),
             [CreateFromText (Extractor.text result) (pendingPdfName st)])
        | Throw e =>
            (cleanUp st,
             [CreateFromText (Extractor.text result) (pendingPdfName st);
              Alert (lit "Error")
                    (lit "Failed to process extracted text: " ++ message e)])
        end
    | Throw e =>
        (cleanUp st,
         [CreateFromText (Extractor.text result) (pendingPdfName st);
          Alert (lit "Error") (lit "Failed to process extracted text: " ++ message e)])
    end
  else (st, []).

End Handlers.

(** Modelled from the spec: [needsOCRFallback], the decision of the
    missing [SmartPDFPipeline] module.  The design's state machine leaves
    [ExtractingStructured] for [Done(success)] when the text is longer
    than the 50-character viability threshold and no error is reported,
    and for [NeedsFallback] otherwise. *)
Definition needsOCRFallback_spec (result : Extractor.PDFJSExtractionResult) : bool :=
  negb (Extractor.success result) || (length (Extractor.text result) <=? 50).

End Ask.

End Screens.

(** ** The lexical index and the retriever *)

(** The chunker, the indexer and the retriever live in [services/ai/rag],
    which is not among the sources; this module follows the design
    document (sections 3, 4.3 and 4.4). *)
Module Rag.
Import Js.

Definition isAlnum (c : N) : bool :=
  ((48 <=? c) && (c <=? 57) || (65 <=? c) && (c <=? 90) || (97 <=? c) && (c <=? 122))%N.

Definition toLower (c : N) : N :=
  if ((65 <=? c) && (c <=? 90))%N then (c + 32)%N else c.

Definition flush (cur : list N) : list (list N) :=
  match cur with [] => [] | _ :: _ => [cur] end.

(** Modelled from the spec: "lowercase alphanumeric terms", read as the
    maximal alphanumeric runs of [s], lowercased; [cur] is the run being
    read. *)
Fixpoint terms (cur : list N) (s : list N) : list (list N) :=
  match s with
  | [] => flush cur
  | c :: s' =>
      if isAlnum c then terms (cur ++ [toLower c]) s'
      else flush cur ++ terms [] s'
  end.

(** Modelled from the spec: the tokenizer shared by indexer and retriever
    ("lowercase alphanumeric terms, discarding a small stopword set"); the
    stopword set is not given and is a parameter. *)
Definition tokenize (stopwords : list (list N)) (s : list N) : list (list N) :=
  filter (λ t, t ∉ stopwords) (terms [] s).

(** Modelled from the spec: the [Chunk] of the data model. *)
Record Chunk := {
  id : nat;
  documentId : nat;
  ordinal : nat;
  text : list N;
  pageStart : nat;
  pageEnd : nat;
  termFrequencies : gmap (list N) nat }.

(** Modelled from the spec: the [DocumentIndex] of the data model;
    [postings] maps a term to its set of (chunkId, frequency). *)
Record DocumentIndex := {
  indexOf : nat;
  chunks : list Chunk;
  postings : gmap (list N) (gset (nat * nat)) }.

(** Modelled from the spec: the "per-chunk term frequency" of a token
    sequence. *)
Definition countTerms (ts : list (list N)) : gmap (list N) nat :=
  foldr (λ t m, <[t := S (default 0 (m !! t))]> m) ∅ ts.

Definition termFrequency (c : Chunk) (t : list N) : nat :=
  default 0 (termFrequencies c !! t).

(** Modelled from the spec: one more (chunkId, frequency) in the set the
    postings keep for term [t]. *)
Definition addPosting (t : list N) (e : nat * nat)
    (p : gmap (list N) (gset (nat * nat))) : gmap (list N) (gset (nat * nat)) :=
  <[t := {[e]} ∪ default ∅ (p !! t)]> p.

Section Index.
Variable stopwords : list (list N).

(** Modelled from the spec: the indexer "records per-chunk term
    frequency". *)
Definition indexChunk (c : Chunk) : Chunk :=
  {| id := id c; documentId := documentId c; ordinal := ordinal c;
     text := text c; pageStart := pageStart c; pageEnd := pageEnd c;
     termFrequencies := countTerms (tokenize stopwords (text c)) |}.

(** Modelled from the spec: the postings one indexed chunk contributes,
    for each of its terms the pair of its id and the term's frequency in
    it. *)
Definition chunkEntries (c : Chunk) : list (list N * (nat * nat)) :=
  (λ t, (t, (id c, termFrequency c t))) <$> tokenize stopwords (text c).

Definition addEntries (es : list (list N * (nat * nat)))
    (p : gmap (list N) (gset (nat * nat))) : gmap (list N) (gset (nat * nat)) :=
  foldl (λ acc e, addPosting e.1 e.2 acc) p es.

(** Modelled from the spec: indexing a chunk sequence into postings
    [p]. *)
Definition indexInto (p : gmap (list N) (gset (nat * nat))) (cs : list Chunk)
  : gmap (list N) (gset (nat * nat)) :=
  addEntries (cs ≫= λ c, chunkEntries (indexChunk c)) p.

(** Modelled from the spec: [build(chunks) → DocumentIndex] "builds the
    inverted postings mapping", from nothing but the chunks. *)
Definition build (doc : nat) (cs : list Chunk) : DocumentIndex :=
  {| indexOf := doc; chunks := indexChunk <$> cs; postings := indexInto ∅ cs |}.

(** *** Retrieval *)

(** Modelled from the spec: [idf(term) = log(1 + totalChunks /
    documentFrequency(term))] is a real number; the ranking takes the
    weight as a parameter [idf totalChunks df]. *)
Variable idf : nat → nat → Z.

Definition documentFrequency (idx : DocumentIndex) (t : list N) : nat :=
  size (default ∅ (postings idx !! t)).

(** Modelled from the spec: a candidate is "any chunk sharing ≥1 term
    with the question". *)
Definition sharesTerm (qterms : list (list N)) (c : Chunk) : Prop :=
  Exists (λ t, 0 < termFrequency c t) qterms.

#[global] Instance sharesTerm_dec qterms c : Decision (sharesTerm qterms c) :=
  Exists_dec (λ t, 0 < termFrequency c t) qterms.

(** Modelled from the spec:
    [score(chunk) = Σ_term termFrequency(chunk, term) * idf(term)], the
    sum ranging over the distinct terms of the question. *)
Definition score (idx : DocumentIndex) (qterms : list (list N)) (c : Chunk) : Z :=
  foldr (λ t acc,
           (Z.of_nat (termFrequency c t)
            * idf (length (chunks idx)) (documentFrequency idx t) + acc)%Z)
        0%Z (remove_dups qterms).

(** Modelled from the spec: descending score, "ties are broken by
    ascending chunk ordinal". *)
Definition ranksBefore (a b : Chunk * Z) : Prop :=
  (b.2 < a.2)%Z ∨ (a.2 = b.2 ∧ ordinal a.1 ≤ ordinal b.1).

#[global] Instance ranksBefore_dec : RelDecision ranksBefore :=
  λ a b, @or_dec ((b.2 < a.2)%Z) _ (a.2 = b.2 ∧ ordinal a.1 ≤ ordinal b.1) _.

(** Modelled from the spec: [retrieve(index, question, k)]. *)
Definition retrieve (idx : DocumentIndex) (question : list N) (k : nat)
  : list (Chunk * Z) :=
  let qterms := tokenize stopwords question in
  let candidates := filter (sharesTerm qterms) (chunks idx) in
  take k (merge_sort ranksBefore ((λ c, (c, score idx qterms c)) <$> candidates)).

End Index.

(** *** An example document *)

Definition exampleStopwords : list (list N) :=
  [lit "are"; lit "have"; lit "the"; lit "a"].

(** A fixed-point stand-in for [log(1 + totalChunks / df)]. *)
Definition exampleIdf (totalChunks df : nat) : Z :=
  Z.log2 (Z.of_nat (1024 + 1024 * totalChunks / df)).

Definition catsChunk : Chunk :=
  {| id := 0; documentId := 1; ordinal := 0;
     text := lit "Cats are mammals. Cats have fur.";
     pageStart := 1; pageEnd := 1; termFrequencies := ∅ |}.

Definition dogsChunk : Chunk :=
  {| id := 1; documentId := 1; ordinal := 1;
     text := lit "Dogs bark at cats.";
     pageStart := 1; pageEnd := 1; termFrequencies := ∅ |}.

(** *** Page metadata *)

Fixpoint stripPrefix (pre s : list N) : option (list N) :=
  match pre, s with
  | [], _ => Some s
  | a :: pre', b :: s' => if (a =? b)%N then stripPrefix pre' s' else None
  | _ :: _, [] => None
  end.

Definition isDigit (c : N) : bool := ((48 <=? c) && (c <=? 57))%N.

Fixpoint digitsPrefix (s : list N) : list N :=
  match s with
  | c :: s' => if isDigit c then c :: digitsPrefix s' else []
  | [] => []
  end.

Definition readNat (ds : list N) : option nat :=
  Nat.of_uint <$> NilEmpty.uint_of_string (string_of_list_ascii (ascii_of_N <$> ds)).

(** Modelled from the spec: the page number of a leading
    "--- Page N ---" marker line. *)
Definition markerPage (s : list N) : option nat :=
  rest ← stripPrefix (lit "--- Page ") s;
  _ ← stripPrefix (lit " ---" ++ [10%N]) (drop (length (digitsPrefix rest)) rest);
  readNat (digitsPrefix rest).

(** Modelled from the spec: the chunker, which is not among the sources,
    derives page metadata "from the markers injected during OCR
    accumulation", and text without a marker is "a single implicit page
    (page 1)". *)
Definition pageOf (s : list N) : nat := default 1 (markerPage s).

(** Postings [p] already hold the entry [x]. *)
Definition holds (p : gmap (list N) (gset (nat * nat))) (x : list N * (nat * nat)) : Prop :=
  ∃ s, p !! x.1 = Some s ∧ x.2 ∈ s.

End Rag.

(** ** The rest of the two screens *)

(** [String.prototype.startsWith] and [includes]. *)
Module JsText.

Fixpoint startsWith (s pre : list N) : bool :=
  match pre, s with
  | [], _ => true
  | a :: pre', b :: s' => (a =? b)%N && startsWith s' pre'
  | _ :: _, [] => false
  end.

Fixpoint includes (s needle : list N) : bool :=
  startsWith s needle
  || match s with
     | [] => false
     | _ :: s' => includes s' needle
     end.

End JsText.

(** The conversation both screens keep in [messages]. *)
Module Chat.
Import Js.

Inductive Role := User | Assistant.

(** The [Message] interface of both screens. *)
Record Message := {
  id : list N;
  role : Role;
  content : list N;
  sources : option (list (list N)) }.

(** What [askQuestion] and [answerWithRAG] resolve to: [answer] and the
    [page] of each entry of [sources]. *)
Record Response := { answer : list N; sourcePages : list nat }.

(** [response.sources.map(s => `Page ${s.page}`)] *)
Definition sourceLabels (response : Response) : list (list N) :=
  (λ page, lit "Page " ++ String_of_nat page) <$> sourcePages response.

(** The message that replaces the placeholder; [now] is [Date.now()]. *)
Definition answerMessage (now : nat) (response : Response) : Message :=
  {| id := String_of_nat now; role := Assistant; content := answer response;
     sources := Some (sourceLabels response) |}.

Definition userMessage (now : nat) (question : list N) : Message :=
  {| id := String_of_nat now; role := User; content := question; sources := None |}.

End Chat.

(** *** app/ai-test/pdf-qa.tsx: paste, camera, pick and send *)
Module PdfQaScreen.
Import Js Screens Chat.

(** The state of the screen: the part [handlePDFJSExtraction] works on,
    and the cells of the chat and of the paste mode. *)
Record State := {
  core : PdfQa.State;
  messages : list Message;
  inputText : list N;
  showPasteMode : bool;
  pastedText : list N }.

Definition set_processing (b : bool) (c : PdfQa.State) : PdfQa.State :=
  {| PdfQa.activeDoc := PdfQa.activeDoc c; PdfQa.processing := b;
     PdfQa.pdfBase64 := PdfQa.pdfBase64 c;
     PdfQa.pendingPdfName := PdfQa.pendingPdfName c |}.

Definition set_core (c : PdfQa.State) (st : State) : State :=
  {| core := c; messages := messages st; inputText := inputText st;
     showPasteMode := showPasteMode st; pastedText := pastedText st |}.

Definition set_messages (ms : list Message) (st : State) : State :=
  {| core := core st; messages := ms; inputText := inputText st;
     showPasteMode := showPasteMode st; pastedText := pastedText st |}.

Definition set_inputText (s : list N) (st : State) : State :=
  {| core := core st; messages := messages st; inputText := s;
     showPasteMode := showPasteMode st; pastedText := pastedText st |}.

Definition systemMessage (text : list N) : Message :=
  {| id := lit "system"; role := Assistant; content := text; sources := None |}.

(** The [try] block of [handlePasteTextSubmit] after a successful
    [createFromText]. *)
Definition pasteAccepted (doc : PDFDocument) (st : State) : State :=
  {| core := PdfQa.set_activeDoc doc (core st);
     messages :=
       [systemMessage
          (lit "Ready to answer questions about your pasted text ("
           ++ String_of_nat (length (pastedText st)) ++ lit " characters).")];
     inputText := inputText st;
     showPasteMode := false;
     pastedText := [] |}.

Definition handlePasteTextSubmit `{PDFQAService} (st : State) : State * list Effect :=
  if negb (truthy (trim (pastedText st))) || (length (pastedText st) <? 50)
  then (st, [Alert (lit "Error") (lit "Please paste at least 50 characters of text.")])
  else
    let st1 := set_core (set_processing true (core st)) st in
    let '(st2, effs) :=
      match createFromText (pastedText st) (lit "Pasted Document") with
      | Normal doc =>
          (pasteAccepted doc st1,
           [CreateFromText (pastedText st) (lit "Pasted Document")])
      | Throw e =>
          (st1,
           [CreateFromText (pastedText st) (lit "Pasted Document");
            Alert (lit "Error") (lit "Failed to process text: " ++ message e)])
      end
    in (set_core (set_processing false (core st2)) st2, effs).

(** [ocrResult] of [CameraOCRService.extractTextFromImage]: the fields
    the handler stores or tests. *)
Record OCRScanResult := { ocrText : list N; wordCount : nat }.

(** The camera, the picker and the OCR service of the screen; none of
    them is among the sources and each call may throw.
    [requestCameraPermissions] is [status === 'granted'];
    [launchCamera] is [None] when [result.canceled], else the [uri] of
    the first asset. *)
Class CameraServices := {
  requestCameraPermissions : completion bool;
  launchCamera : completion (option (list N));
  extractTextFromImage : list N → completion OCRScanResult }.

Definition noTextFound : list N :=
  lit "Could not find enough readable text." ++ [10; 10]%N
  ++ lit "Tips:" ++ [10; 8226]%N ++ lit " Use good lighting"
  ++ [10; 8226]%N ++ lit " Hold camera steady"
  ++ [10; 8226]%N ++ lit " Make sure text is clear and in focus".

Definition scanAccepted (doc : PDFDocument) (ocrResult : OCRScanResult) (st : State)
  : State :=
  set_messages
    [systemMessage
       (lit "Ready to answer questions about your scanned document ("
        ++ String_of_nat (wordCount ocrResult) ++ lit " words extracted).")]
    (set_core (PdfQa.set_activeDoc doc (core st)) st).

(** The [catch] of [handleCameraScan]. *)
Definition scanFailed (e : JsError) (st : State) (effs : list Effect)
  : State * list Effect :=
  (st, effs ++ [Alert (lit "Scan Failed") (message e)]).

(** [handleCameraScan]: the [try] block, then the [finally] that resets
    [processing] on every path, the early [return]s included. *)
Definition handleCameraScan `{PDFQAService} `{CameraServices} (st : State)
  : State * list Effect :=
  let '(st', effs) :=
    match requestCameraPermissions with
    | Throw e => scanFailed e st []
    | Normal false =>
        (st, [Alert (lit "Permission Needed")
                    (lit "Camera permission is required to scan documents.")])
    | Normal true =>
        let st1 := set_core (set_processing true (core st)) st in
        match launchCamera with
        | Throw e => scanFailed e st1 []
        | Normal None => (set_core (set_processing false (core st1)) st1, [])
        | Normal (Some imageUri) =>
            match extractTextFromImage imageUri with
            | Throw e => scanFailed e st1 []
            | Normal ocrResult =>
                if length (ocrText ocrResult) <? 30
                then (set_core (set_processing false (core st1)) st1,
                      [Alert (lit "No Text Found") noTextFound])
                else
                  match createFromText (ocrText ocrResult) (lit "Scanned Document") with
                  | Throw e =>
                      scanFailed e st1
                        [CreateFromText (ocrText ocrResult) (lit "Scanned Document")]
                  | Normal doc =>
                      (scanAccepted doc ocrResult st1,
                       [CreateFromText (ocrText ocrResult) (lit "Scanned Document")])
                  end
            end
        end
    end
  in (set_core (set_processing false (core st')) st', effs).

(** [DocumentPicker.getDocumentAsync] and [readPDFAsBase64]. *)
Inductive PickResult :=
| Canceled
| Picked (name uri : list N).

Class DocumentServices := {
  getDocumentAsync : completion PickResult;
  readPDFAsBase64 : list N → completion (list N) }.

Definition handlePickDocument `{DocumentServices} (c : PdfQa.State)
  : PdfQa.State * list Effect :=
  match getDocumentAsync with
  | Throw e => (c, [Alert (lit "Error") (lit "Failed to pick document: " ++ message e)])
  | Normal Canceled => (c, [])
  | Normal (Picked name uri) =>
      match readPDFAsBase64 uri with
      | Normal base64 =>
          ({| PdfQa.activeDoc := PdfQa.activeDoc c; PdfQa.processing := true;
              PdfQa.pdfBase64 := Some base64; PdfQa.pendingPdfName := name |}, [])
      | Throw e =>
          (set_processing false (set_processing true c),
           [Alert (lit "Error") (lit "Failed to read PDF: " ++ message e)])
      end
  end.

(** [{pdfBase64 && <PDFExtractor pdfBase64={pdfBase64} ... />}] *)
Definition extractorMounted (c : PdfQa.State) : bool :=
  truthy (default [] (PdfQa.pdfBase64 c)).

(** The placeholder [handleSend] shows while the answer is awaited. *)
Definition thinking : Message :=
  {| id := lit "thinking"; role := Assistant; content := lit "Thinking...";
     sources := None |}.

(** The argument of [askQuestion]. *)
Record Request := { question : list N; documentId : list N }.

(** [handleSend] up to its [await]: the request it issues, if any. *)
Definition handleSend_start (isTextModelReady : bool) (now : nat) (st : State)
  : State * list Effect * option Request :=
  match PdfQa.activeDoc (core st) with
  | None => (st, [], None)
  | Some activeDoc =>
      if negb (truthy (trim (inputText st))) then (st, [], None)
      else if negb isTextModelReady
      then (st, [Alert (lit "Model Not Ready")
                       (lit "Please initialize the AI engine first.")], None)
      else
        let q := trim (inputText st) in
        (set_messages (messages st ++ [userMessage now q] ++ [thinking])
           (set_inputText [] st),
         [],
         Some {| question := q; documentId := Screens.id activeDoc |})
  end.

(** [handleSend] from its [await] on: [outcome] is what [askQuestion]
    settled to, [now] the [Date.now()] of the answer. *)
Definition handleSend_finish (now : nat) (outcome : completion Response) (st : State)
  : State * list Effect :=
  match outcome with
  | Normal response =>
      (set_messages
         ((λ msg, if decide (id msg = lit "thinking")
                  then answerMessage now response else msg) <$> messages st) st,
       [])
  | Throw e =>
      (set_messages (filter (λ msg, id msg ≠ lit "thinking") (messages st)) st,
       [Alert (lit "Error") (lit "Failed to get answer: " ++ message e)])
  end.

End PdfQaScreen.

(** *** The Ask screen: pick, OCR completion and send *)
Module AskScreen.
Import Js Screens Chat.

(** The "Clean up" lines that end [handleOCRComplete]. *)
Definition cleanUpOCR (st : Ask.State) : Ask.State :=
  {| Ask.activeDoc := Ask.activeDoc st; Ask.processing := false;
     Ask.pdfBase64 := Ask.pdfBase64 st; Ask.pendingPdfName := [];
     Ask.pendingPdfUri := []; Ask.useOCRFallback := false |}.

Definition handleOCRComplete `{PDFQAService}
    (result : OCRFallback.Result) (st : Ask.State) : Ask.State * list Effect :=
  let '(st1, effs) :=
    if OCRFallback.success result && (50 <? length (OCRFallback.text result)) then
      match createFromText (OCRFallback.text result) (Ask.pendingPdfName st) with
      | Normal doc =>
          (Ask.set_activeDoc doc st,
           [CreateFromText (OCRFallback.text result) (Ask.pendingPdfName st)])
      | Throw e =>
          (st,
           [CreateFromText (OCRFallback.text result) (Ask.pendingPdfName st);
            Alert (lit "Error") (lit "Failed to process OCR text: " ++ message e)])
      end
    else
      (st, [Alert (lit "Extraction Failed")
                  (orElse (OCRFallback.error result)
                     (lit "Could not extract text from PDF using either PDF.js or OCR."))])
  in (cleanUpOCR st1, effs).

Definition handlePickDocument `{PdfQaScreen.DocumentServices} (st : Ask.State)
  : Ask.State * list Effect :=
  match PdfQaScreen.getDocumentAsync with
  | Throw e => (st, [Alert (lit "Error") (lit "Failed to pick document: " ++ message e)])
  | Normal PdfQaScreen.Canceled => (st, [])
  | Normal (PdfQaScreen.Picked name uri) =>
      match PdfQaScreen.readPDFAsBase64 uri with
      | Normal base64 =>
          ({| Ask.activeDoc := Ask.activeDoc st; Ask.processing := true;
              Ask.pdfBase64 := Some base64; Ask.pendingPdfName := name;
              Ask.pendingPdfUri := uri; Ask.useOCRFallback := Ask.useOCRFallback st |},
           [])
      | Throw e =>
          ({| Ask.activeDoc := Ask.activeDoc st; Ask.processing := false;
              Ask.pdfBase64 := Ask.pdfBase64 st; Ask.pendingPdfName := name;
              Ask.pendingPdfUri := uri; Ask.useOCRFallback := Ask.useOCRFallback st |},
           [Alert (lit "Error") (lit "Failed to read PDF: " ++ message e)])
      end
  end.

(** [{pdfBase64 && <PDFExtractor ... />}] *)
Definition extractorMounted (st : Ask.State) : bool :=
  truthy (default [] (Ask.pdfBase64 st)).

(** The chat cells of the screen. *)
Record ChatState := {
  activeDoc : option PDFDocument;
  messages : list Message;
  inputText : list N }.

(** ["thinking-" + Date.now()] *)
Definition thinkingId (now : nat) : list N := lit "thinking-" ++ String_of_nat now.

Definition searching (now : nat) : Message :=
  {| id := thinkingId now; role := Assistant;
     content := [55357; 56589]%N
                ++ lit " Searching relevant sections and generating answer...";
     sources := None |}.

(** [handleSend] up to its [await]; the same [Date.now()] names the
    user's message and, a few statements later, the placeholder: [now]
    and [now'] are the two readings. *)
Definition handleSend_start (isTextModelReady : bool) (now now' : nat) (st : ChatState)
  : ChatState * list Effect * option PdfQaScreen.Request :=
  match activeDoc st with
  | None => (st, [], None)
  | Some doc =>
      if negb (truthy (trim (inputText st))) then (st, [], None)
      else if negb isTextModelReady
      then (st, [Alert (lit "Model Not Ready")
                       (lit "Please initialize the AI engine first from the Learn tab.")],
            None)
      else
        let q := trim (inputText st) in
        ({| activeDoc := activeDoc st;
            messages := messages st ++ [userMessage now q] ++ [searching now'];
            inputText := [] |},
         [],
         Some {| PdfQaScreen.question := q; PdfQaScreen.documentId := Screens.id doc |})
  end.

(** [userFriendlyError] *)
Definition userFriendlyError (errorMsg : list N) : list N :=
  if JsText.includes errorMsg (lit "not found")
  then lit "Document expired. Please upload the PDF again."
  else lit "Unable to answer: " ++ errorMsg.

(** [handleSend] from its [await] on, for the send whose placeholder was
    made at [now']. *)
Definition handleSend_finish (now' now : nat) (outcome : completion Response)
    (st : ChatState) : ChatState * list Effect :=
  match outcome with
  | Normal response =>
      ({| activeDoc := activeDoc st;
          messages := (λ msg, if decide (id msg = thinkingId now')
                              then answerMessage now response else msg)
                      <$> messages st;
          inputText := inputText st |},
       [])
  | Throw e =>
      ({| activeDoc := activeDoc st;
          messages := filter (λ msg, JsText.startsWith (id msg) (lit "thinking-") = false)
                        (messages st);
          inputText := inputText st |},
       [Alert (lit "Error") (userFriendlyError (message e))])
  end.

End AskScreen.

(** ** Invariants of the OCR accumulator *)
Module OCRAccumulator.
Import Js OCRFallback.

(** [texts] are the entries of the pages [pts.*1] with the recognized
    texts [pts.*2]: pages in strictly ascending order, each at least 1
    and below [bound], each text with a character that is not white
    space. *)
Definition entriesBelow (bound : nat) (texts : list (list N)) : Prop :=
  ∃ pts : list (nat * list N),
    texts = (λ pt, pageEntry pt.1 pt.2) <$> pts
    ∧ StronglySorted lt (pts.*1)
    ∧ Forall (λ pt, 1 ≤ pt.1 ∧ pt.1 < bound ∧ truthy (trim pt.2) = true) pts.

(** With [k] pages entered, a running page has not added its entry yet. *)
Definition accumulatorOk (k : nat) (st : State) : Prop :=
  entriesBelow (match running st with Some _ => k | None => k + 1 end)
    (extractedTexts st).

End OCRAccumulator.

(** ** Events of one ingestion by the PDF.js extractor *)
Module ExtractorRuns.
Import Js Extractor.

(** An event from the [WebView] whose message, if it is one, is accepted
    by [parseExtractionResult]. *)
Definition parsable `{PDFJSExtractorService} (ev : Event) : Prop :=
  match ev with
  | Message data => ∃ r, parseExtractionResult data = Normal r
  | WebViewError _ => True
  | Mount | LoadHTML _ | Unmount => False
  end.

(** The page [loadHTML] hands to the [WebView] when the CDN generator
    returns [online]: the bundled one if it is tried and returns. *)
Definition chosenHtml `{PDFJSExtractorService} (props : Props) (online : list N)
  : list N :=
  if forceOnline props then online
  else match generatePDFExtractorHTMLOffline (pdfBase64 props) with
       | Normal offline => offline
       | Throw _ => online
       end.

End ExtractorRuns.

(** * Properties *)

(** Case analysis on every [if] of the goal. *)
Ltac case_ifs :=
  repeat (match goal with |- context [if ?b then _ else _] => destruct b end;
          simpl).

(** Boolean tests in the hypotheses, as propositions. *)
Ltac bool_hyps :=
  repeat match goal with
  | H : (_ || _) = false |- _ => apply orb_false_elim in H as [? ?]
  | H : negb _ = false |- _ => apply negb_false_iff in H
  | H : negb _ = true |- _ => apply negb_true_iff in H
  | H : (_ <? _) = true |- _ => apply Nat.ltb_lt in H
  | H : (_ <? _) = false |- _ => apply Nat.ltb_ge in H
  | H : (_ =? _) = true |- _ => apply Nat.eqb_eq in H
  | H : (_ =? _) = false |- _ => apply Nat.eqb_neq in H
  end.

(** ** Strings and page markers *)

Section StringFacts.
Import Js.

Lemma trimStart_nil s :
  trimStart s = [] ↔ Forall (λ c, isWhiteSpace c = true) s.
Proof.
  induction s as [|c s IH]; simpl.
  - split; [constructor | done].
  - destruct (isWhiteSpace c) eqn:Hc.
    + rewrite IH. split; [by constructor | by inversion 1].
    + split; [done | inversion 1; congruence].
Qed.

Lemma trimStart_blank s :
  Forall (λ c, isWhiteSpace c = true) (trimStart s)
  ↔ Forall (λ c, isWhiteSpace c = true) s.
Proof.
  induction s as [|c s IH]; simpl; [done|].
  destruct (isWhiteSpace c) eqn:Hc; [|done].
  rewrite IH. split; [by constructor | by inversion 1].
Qed.

Lemma Forall_rev_iff {A} (P : A → Prop) (l : list A) :
  Forall P (rev l) ↔ Forall P l.
Proof.
  rewrite !List.Forall_forall.
  split; intros H x Hx; apply H; [by apply in_rev in Hx | by apply in_rev].
Qed.

(** [s.trim()] is empty exactly when [s] consists of white space. *)
Lemma trim_blank s :
  truthy (trim s) = false ↔ Forall (λ c, isWhiteSpace c = true) s.
Proof.
  unfold trim, trimEnd.
  rewrite <- trimStart_blank, <- (Forall_rev_iff _ (trimStart s)).
  rewrite <- trimStart_nil.
  destruct (trimStart (rev (trimStart s))) as [|c l]; simpl.
  - done.
  - destruct (rev l); simpl; split; discriminate.
Qed.

Lemma lit_digits d :
  Forall (λ c, Rag.isDigit c = true) (lit (NilEmpty.string_of_uint d)).
Proof.
  induction d; simpl; constructor; done.
Qed.

Lemma stripPrefix_app pre s : Rag.stripPrefix pre (pre ++ s) = Some s.
Proof.
  induction pre as [|a pre IH]; simpl; [done|]. by rewrite N.eqb_refl.
Qed.

Lemma digitsPrefix_app ds c s :
  Forall (λ c, Rag.isDigit c = true) ds → Rag.isDigit c = false →
  Rag.digitsPrefix (ds ++ c :: s) = ds.
Proof.
  intros Hds Hc. induction Hds as [|d ds Hd _ IH]; simpl.
  - by rewrite Hc.
  - by rewrite Hd, IH.
Qed.

Lemma readNat_String_of_nat n : Rag.readNat (String_of_nat n) = Some n.
Proof.
  unfold Rag.readNat, String_of_nat, lit.
  rewrite <- list_fmap_compose.
  rewrite (list_fmap_ext _ id (list_ascii_of_string _))
    by (intros; apply ascii_N_embedding).
  rewrite list_fmap_id, string_of_list_ascii_of_string, NilEmpty.usu.
  simpl. by rewrite Unsigned.of_to.
Qed.

(** The page number of an accumulator entry can be read back from its
    marker line; text without a marker counts as page 1. *)
Lemma markerPage_pageEntry n pageText :
  Rag.markerPage (OCRFallback.pageEntry n pageText) = Some n.
Proof.
  unfold Rag.markerPage, OCRFallback.pageEntry.
  rewrite stripPrefix_app. cbn [mbind option_bind].
  change (lit " ---") with (32%N :: lit "---").
  rewrite <- app_comm_cons.
  rewrite (digitsPrefix_app (String_of_nat n) 32%N) by (apply lit_digits || done).
  rewrite drop_app_length.
  change (32%N :: lit "---" ++ [10%N] ++ pageText)
    with (((32%N :: lit "---") ++ [10%N]) ++ pageText).
  rewrite stripPrefix_app. cbn [mbind option_bind].
  apply readNat_String_of_nat.
Qed.

Example pageOf_marked :
  Rag.pageOf (OCRFallback.pageEntry 12 (lit "Chapter 3")) = 12.
Proof. unfold Rag.pageOf. by rewrite markerPage_pageEntry. Qed.

Example pageOf_unmarked : Rag.pageOf (lit "Cats are mammals.") = 1.
Proof. reflexivity. Qed.

End StringFacts.

(** ** The OCR fallback loop *)

Section OCRFallbackFacts.
Import Js OCRFallback.
Variable maxPages : nat.

Lemma tryPage_app page o texts :
  tryPage page o texts = texts ++ tryPage page o [].
Proof.
  destruct o as [| | |pageText]; simpl; try (by rewrite app_nil_r).
  destruct (truthy (trim pageText)); simpl; [done | by rewrite app_nil_r].
Qed.

(** Once [hasCompleted] is set, no event starts a page or completes
    again, and the flag stays set. *)
Lemma step_after_completion st ev :
  hasCompleted st = true →
  (step maxPages st ev).2 = [] ∧ hasCompleted (step maxPages st ev).1 = true.
Proof.
  intros Hc. unfold step.
  destruct ev as [n|p|m|o]; simpl.
  - unfold effect. simpl. rewrite Hc, !orb_true_r.
    destruct (depsChanged _ _); simpl; auto.
  - unfold effect. simpl. rewrite Hc, !orb_true_r.
    destruct (depsChanged _ _); simpl; auto.
  - unfold handleError. rewrite Hc.
    unfold depsChanged. rewrite eqb_reflx, !Nat.eqb_refl. simpl. auto.
  - destruct (running st) as [cl|] eqn:Hr.
    + unfold processCurrentPage_resume, finishExtraction. simpl. rewrite Hc.
      destruct (cl_currentPage cl <? _); simpl.
      * unfold effect. simpl.
        destruct (depsChanged _ _); simpl; auto.
      * unfold effect. simpl.
        destruct (depsChanged _ _); simpl; auto.
    + unfold depsChanged. rewrite eqb_reflx, !Nat.eqb_refl. simpl. auto.
Qed.

Lemma run_after_completion st evs :
  hasCompleted st = true →
  (run maxPages st evs).2 = [] ∧ hasCompleted (run maxPages st evs).1 = true.
Proof.
  revert st. induction evs as [|ev evs IH]; intros st Hc; simpl; [done|].
  destruct (step_after_completion st ev Hc) as [Ho Hc1].
  destruct (step maxPages st ev) as [st1 out1]; simpl in *.
  destruct (IH st1 Hc1) as [Ho2 Hc2].
  destruct (run maxPages st1 evs) as [st2 out2]; simpl in *.
  by subst.
Qed.

Lemma contributions_cons outcomes p pages :
  contributions outcomes (p :: pages) =
  tryPage p (outcomes p) [] ++ contributions outcomes pages.
Proof. reflexivity. Qed.

(** One turn of the loop, from the state between two pages: the page is
    reported ready, processed, and the loop either advances or finishes. *)
Lemma one_page p n texts o page :
  n ≠ 0 →
  run maxPages (betweenPages p n texts) [PageChanged page; PageDone o] =
    if p <? Nat.min n maxPages
    then (betweenPages (p + 1) n (tryPage p o texts),
          [ProcessPage p (Nat.min n maxPages)])
    else ((finishExtraction maxPages n (betweenPages p n (tryPage p o texts))).1,
          ProcessPage p (Nat.min n maxPages)
          :: (finishExtraction maxPages n (betweenPages p n (tryPage p o texts))).2).
Proof.
  intros Hn. apply Nat.eqb_neq in Hn.
  unfold run, step, handle, handlePageChanged, betweenPages, depsChanged,
    effect, processCurrentPage_start. simpl. rewrite Hn. simpl.
  unfold processCurrentPage_resume. simpl.
  destruct (p <? Nat.min n maxPages) eqn:Hp; simpl.
  - reflexivity.
  - reflexivity.
Qed.

(** The pass from page [p] on: it processes [p], [p+1], ... up to the
    last page to process, then completes once. *)
Lemma drive_pages outcomes n :
  n ≠ 0 →
  ∀ k p texts fuel,
    Nat.min n maxPages - p = k → k < fuel →
    drive maxPages outcomes fuel (betweenPages p n texts) =
      let texts' := texts ++ contributions outcomes (seq p (S k)) in
      ((finishExtraction maxPages n (betweenPages (p + k) n texts')).1,
       ((λ q, ProcessPage q (Nat.min n maxPages)) <$> seq p (S k))
       ++ (finishExtraction maxPages n (betweenPages (p + k) n texts')).2).
Proof.
  intros Hn k. induction k as [|k IH]; intros p texts fuel Hk Hf.
  - destruct fuel as [|fuel]; [lia|].
    cbn [drive betweenPages hasCompleted currentPage].
    fold (betweenPages p n texts). rewrite one_page by done.
    assert ((p <? Nat.min n maxPages) = false) as -> by (apply Nat.ltb_ge; lia).
    rewrite Nat.add_0_r.
    change (seq p 1) with [p].
    rewrite contributions_cons. change (contributions outcomes []) with (@nil (list N)).
    rewrite app_nil_r, <- tryPage_app.
    unfold finishExtraction. simpl.
    destruct fuel; simpl; done.
  - destruct fuel as [|fuel]; [lia|].
    cbn [drive betweenPages hasCompleted currentPage].
    fold (betweenPages p n texts). rewrite one_page by done.
    assert ((p <? Nat.min n maxPages) = true) as -> by (apply Nat.ltb_lt; lia).
    rewrite (IH (p + 1) (tryPage p (outcomes p) texts) fuel) by lia.
    cbv zeta.
    replace (p + 1 + k) with (p + S k) by lia.
    replace (seq p (S (S k))) with (p :: seq (p + 1) (S k))
      by (rewrite Nat.add_1_r; done).
    rewrite (contributions_cons outcomes p).
    rewrite (tryPage_app p (outcomes p) texts), <- !app_assoc.
    done.
Qed.

(** The whole pass over a document of [n ≥ 1] pages. *)
Lemma session_pages outcomes n fuel :
  n ≠ 0 → Nat.min n maxPages ≤ fuel → 1 ≤ maxPages →
  session maxPages n outcomes fuel =
    let m := Nat.min n maxPages in
    let texts := contributions outcomes (seq 1 m) in
    ((finishExtraction maxPages n (betweenPages m n texts)).1,
     ((λ q, ProcessPage q m) <$> seq 1 m)
     ++ (finishExtraction maxPages n (betweenPages m n texts)).2).
Proof.
  intros Hn Hf Hm. unfold session.
  assert (step maxPages initial (LoadComplete n) = (betweenPages 1 n [], [])) as ->.
  { unfold step, handle, handleLoadComplete, depsChanged, effect. simpl.
    destruct n; [done|]. simpl. done. }
  rewrite (drive_pages outcomes n Hn (Nat.min n maxPages - 1) 1 [] fuel) by lia.
  cbv zeta. rewrite app_nil_l.
  replace (S (Nat.min n maxPages - 1)) with (Nat.min n maxPages) by lia.
  replace (1 + (Nat.min n maxPages - 1)) with (Nat.min n maxPages) by lia.
  done.
Qed.

Lemma pagesProcessed_pass m pages r :
  pagesProcessed (((λ q, ProcessPage q m) <$> pages) ++ [OnComplete r]) = pages.
Proof.
  unfold pagesProcessed. induction pages as [|q pages IH]; simpl; [done|].
  f_equal. exact IH.
Qed.

Lemma completions_pass m pages r :
  completions (((λ q, ProcessPage q m) <$> pages) ++ [OnComplete r]) = [r].
Proof.
  unfold completions. induction pages as [|q pages IH]; simpl; done.
Qed.

(** Pages whose processing faults add nothing to the accumulator. *)
Lemma contributions_skip_faults outcomes pages :
  contributions outcomes pages =
  contributions outcomes (filter (λ p, isFault (outcomes p) = false) pages).
Proof.
  induction pages as [|p pages IH]; [done|].
  rewrite filter_cons. destruct (decide (isFault (outcomes p) = false)) as [Hp|Hp].
  - rewrite !contributions_cons. by rewrite IH.
  - rewrite contributions_cons, <- IH.
    destruct (outcomes p); simpl in *; done.
Qed.


(** The component calls [onComplete] at most once, whatever happens. *)
Lemma step_completes_once st ev :
  length (completions (step maxPages st ev).2)
  ≤ (if hasCompleted st then 0 else 1)
  ∧ (hasCompleted st = true ∨ completions (step maxPages st ev).2 ≠ [] →
     hasCompleted (step maxPages st ev).1 = true).
Proof.
  destruct (hasCompleted st) eqn:Hc.
  - destruct (step_after_completion st ev Hc) as [-> ->]. simpl. split; [lia|done].
  - unfold step, effect, processCurrentPage_start.
    destruct ev as [n|p|m|o]; simpl.
    + rewrite Hc.
      case_ifs; split; try lia; intros [?|?]; done.
    + rewrite Hc.
      case_ifs; split; try lia; intros [?|?]; done.
    + unfold handleError. rewrite Hc. simpl.
      case_ifs; split; try lia; intros [?|?]; done.
    + destruct (running st) as [cl|]; simpl.
      * unfold processCurrentPage_resume, finishExtraction. simpl. rewrite Hc.
        destruct (cl_currentPage cl <? _); simpl;
        case_ifs; split; try lia; intros [?|?]; done.
      * rewrite Hc.
        case_ifs; split; try lia; intros [?|?]; done.
Qed.

Lemma run_completes_once st evs :
  length (completions (run maxPages st evs).2)
  ≤ (if hasCompleted st then 0 else 1).
Proof.
  revert st. induction evs as [|ev evs IH]; intros st; simpl.
  { destruct (hasCompleted st); simpl; lia. }
  destruct (step_completes_once st ev) as [H1 H2].
  specialize (IH (step maxPages st ev).1).
  destruct (step maxPages st ev) as [st1 out1]; simpl in *.
  destruct (run maxPages st1 evs) as [st2 out2]; simpl in *.
  unfold completions in *. rewrite omap_app, length_app.
  destruct (hasCompleted st) eqn:Hc.
  - rewrite H2 in IH by auto. lia.
  - destruct (omap _ out1) eqn:Ho; simpl in *.
    + destruct (hasCompleted st1); lia.
    + rewrite H2 in IH by (right; done). lia.
Qed.



Lemma initial_in_order n : inOrder maxPages n 0 initial.
Proof. unfold inOrder. simpl. repeat split; auto; lia. Qed.

(** The first page may be reported ready before the document's page
    count arrives: processing starts when the count does. *)
Example ready_before_loaded :
  pagesProcessed
    (run 10 initial
       [PageChanged 1; LoadComplete 2; PageDone NoViewShot;
        PageChanged 2; PageDone NoViewShot]).2 = [1; 2].
Proof. reflexivity. Qed.

(** Outside the bounds of [session_pages]: while the page count is 0 the
    effect returns before processing, so nothing is processed and nothing
    completes; with a cap of 0 the first page is still processed before
    the loop compares the page number with the cap. *)
Example no_pages_no_completion :
  session 10 0 (λ _, NoViewShot) 5
  = ({| currentPage := 1; totalPages := 0; processing := false;
        pageReady := true; hasCompleted := false; extractedTexts := [];
        running := None |}, []).
Proof. reflexivity. Qed.

Example zero_cap_first_page :
  pagesProcessed (session 0 3 (λ _, NoViewShot) 5).2 = [1].
Proof. reflexivity. Qed.

End OCRFallbackFacts.

Section OCRFallbackClaims.
Import Js OCRFallback.



(** C2, as stated, fails for rendering faults: an error reported by the
    [Pdf] view while page 2 of a 3-page document is being rendered ends
    the pass with a failure result and empty text; pages 2 and 3 are
    never processed and the text of page 1 is dropped. *)
Lemma render_fault_aborts_the_pass :
  let pass :=
    run 10 initial
      [LoadComplete 3;
       PageChanged 1; PageDone (Recognized (lit "first page"));
       PdfError (Some (lit "page 2 is corrupt"));
       PageChanged 2; PageDone (Recognized (lit "second page"));
       PageChanged 3; PageDone (Recognized (lit "third page"))] in
  pagesProcessed pass.2 = [1]
  ∧ pagesProcessed pass.2 ≠ seq 1 3
  ∧ completions pass.2 =
      [ {| success := false; text := []; pageCount := 0;
           error := Some (lit "Failed to render PDF for OCR: page 2 is corrupt") |} ].
Proof. vm_compute. split; [done|]. split; [discriminate|done]. Qed.

(** C2, amended.  A capture or recognition that rejects on any pages is
    caught inside the loop: every page [1 .. min n maxPages] is still
    processed in order, a faulted page adds nothing to the accumulator,
    and the single result delivered at the end carries the joined text of
    the other pages.  (An error reported by the [Pdf] view itself is not
    such a fault: [handleError] ends the pass with a failure result.) *)
Theorem page_fault_is_skipped maxPages n outcomes fuel :
  1 ≤ n → 1 ≤ maxPages → Nat.min n maxPages ≤ fuel →
  let pass := session maxPages n outcomes fuel in
  let pages := seq 1 (Nat.min n maxPages) in
  pagesProcessed pass.2 = pages
  ∧ (∀ p texts, isFault (outcomes p) = true →
       tryPage p (outcomes p) texts = texts)
  ∧ ∃ r, completions pass.2 = [r]
       ∧ text r = join [10; 10]%N
                    (contributions outcomes
                       (filter (λ p, isFault (outcomes p) = false) pages))
       ∧ pageCount r = Nat.min n maxPages.
Proof.
  intros Hn Hm Hf pass pages. subst pass pages.
  rewrite session_pages by lia. cbv zeta.
  unfold finishExtraction. simpl.
  split; [apply pagesProcessed_pass|].
  split.
  { intros p texts Hp. destruct (outcomes p); simpl in *; done. }
  eexists. split; [apply completions_pass|]. simpl.
  split; [|done]. by rewrite <- contributions_skip_faults.
Qed.

Lemma page_fault_is_skipped_witness :
  1 ≤ 3 ∧ 1 ≤ 10 ∧ Nat.min 3 10 ≤ 3
  ∧ pagesProcessed
      (session 10 3
         (λ p, if p =? 2 then CaptureRejects {| message := lit "capture failed" |}
               else Recognized (lit "text of a page")) 3).2 = seq 1 3.
Proof.
  assert (1 ≤ 3) as H1 by lia.
  assert (1 ≤ 10) as H2 by lia.
  assert (Nat.min 3 10 ≤ 3) as H3 by (simpl; lia).
  split; [exact H1|]. split; [exact H2|]. split; [exact H3|].
  exact (proj1 (page_fault_is_skipped 10 3 _ 3 H1 H2 H3)).
Defined.

(** C4.  When the running [processCurrentPage] is on the last page to
    process and the component has not completed, its end calls
    [onComplete] once; the result's text is the accumulated page entries
    joined by blank lines, [success] holds exactly when that text is
    longer than 50 code units, [error] is null on success and a non-empty
    message otherwise. *)
Theorem last_page_result maxPages st cl o :
  running st = Some cl →
  hasCompleted st = false →
  ¬ cl_currentPage cl < Nat.min (cl_totalPages cl) maxPages →
  ∃ r, (step maxPages st (PageDone o)).2 = [OnComplete r]
     ∧ text r = join [10; 10]%N (tryPage (cl_currentPage cl) o (extractedTexts st))
     ∧ (success r = true ↔ 50 < length (text r))
     ∧ (success r = true → error r = None)
     ∧ (success r = false → ∃ msg, error r = Some msg ∧ msg ≠ []).
Proof.
  intros Hr Hc Hlast. apply Nat.ltb_nlt in Hlast.
  unfold step, handle. rewrite Hr.
  unfold processCurrentPage_resume. rewrite Hlast.
  unfold finishExtraction. simpl. rewrite Hc.
  unfold effect. simpl.
  set (combined := join _ _).
  eexists. split.
  { destruct (depsChanged _ _); simpl; reflexivity. }
  simpl. split; [done|]. split; [apply Nat.ltb_lt|].
  destruct (50 <? length combined); split; try done.
  intros _. eexists. split; [done|]. discriminate.
Qed.

Lemma last_page_result_witness :
  let st := (run 10 initial [LoadComplete 1; PageChanged 1]).1 in
  running st = Some {| cl_currentPage := 1; cl_totalPages := 1 |}
  ∧ hasCompleted st = false
  ∧ ∃ r, (step 10 st (PageDone (Recognized (lit "scanned text")))).2 = [OnComplete r]
       ∧ (success r = true ↔ 50 < length (text r)).
Proof.
  intros st.
  assert (running st = Some {| cl_currentPage := 1; cl_totalPages := 1 |}) as H1
    by reflexivity.
  assert (hasCompleted st = false) as H2 by reflexivity.
  assert (¬ 1 < Nat.min 1 10) as H3 by (simpl; lia).
  split; [exact H1|]. split; [exact H2|].
  destruct (last_page_result 10 st _ (Recognized (lit "scanned text")) H1 H2 H3)
    as (r & Hout & _ & Hs & _).
  exists r. split; [exact Hout | exact Hs].
Defined.




(** C7, as stated, fails for a page without text: a page whose recognized
    text is blank adds nothing to the accumulator, not a marker line. *)
Lemma blank_page_adds_no_marker :
  let st :=
    (run 10 initial
       [LoadComplete 2; PageChanged 1; PageDone (Recognized (lit "   "))]).1 in
  extractedTexts st = []
  ∧ extractedTexts st ≠ [lit "--- Page 1 ---" ++ [10%N] ++ lit "   "].
Proof. vm_compute. split; [done | discriminate]. Qed.

(** C7, amended.  When the [processCurrentPage] running for page [N]
    ends with recognized text, it appends to the accumulator exactly
    the marker line "--- Page N ---", a newline and the recognized text,
    provided the text has a character that is not white space; a blank
    text leaves the accumulator as it is. *)
Theorem page_entry_is_marker_then_text maxPages st cl pageText :
  running st = Some cl →
  (Exists (λ c, isWhiteSpace c = false) pageText →
   extractedTexts (step maxPages st (PageDone (Recognized pageText))).1 =
     extractedTexts st
     ++ [lit "--- Page " ++ String_of_nat (cl_currentPage cl) ++ lit " ---"
         ++ [10%N] ++ pageText])
  ∧ (Forall (λ c, isWhiteSpace c = true) pageText →
     extractedTexts (step maxPages st (PageDone (Recognized pageText))).1 =
       extractedTexts st).
Proof.
  intros Hr.
  assert (extractedTexts (step maxPages st (PageDone (Recognized pageText))).1
          = tryPage (cl_currentPage cl) (Recognized pageText) (extractedTexts st))
    as ->.
  { unfold step, handle. rewrite Hr.
    unfold processCurrentPage_resume, finishExtraction, effect,
      processCurrentPage_start. simpl.
    case_ifs; reflexivity. }
  simpl. split.
  - intros Hex. destruct (truthy (trim pageText)) eqn:Ht; [done|].
    apply trim_blank in Ht. apply Exists_exists in Hex as (c & Hin & Hc).
    rewrite Forall_forall in Ht. specialize (Ht c Hin). congruence.
  - intros Hall. apply trim_blank in Hall. by rewrite Hall.
Qed.

Lemma page_entry_is_marker_then_text_witness :
  let st := (run 10 initial [LoadComplete 4; PageChanged 1]).1 in
  running st = Some {| cl_currentPage := 1; cl_totalPages := 4 |}
  ∧ extractedTexts (step 10 st (PageDone (Recognized (lit "Chapter 1")))).1 =
      [lit "--- Page 1 ---" ++ [10%N] ++ lit "Chapter 1"].
Proof.
  intros st.
  assert (running st = Some {| cl_currentPage := 1; cl_totalPages := 4 |}) as H1
    by reflexivity.
  split; [exact H1|].
  refine (proj1 (page_entry_is_marker_then_text 10 st _ (lit "Chapter 1") H1) _).
  apply Exists_cons_hd. reflexivity.
Defined.

End OCRFallbackClaims.

(** ** The PDF.js extractor *)

Section ExtractorFacts.
Import Js Extractor.
Context `{PDFJSExtractorService}.
Variable props : Props.

Lemma generateHtml_pure st :
  (generateHtml props st).2 = (st, []).
Proof.
  unfold generateHtml, tryCatch, call.
  destruct (forceOnline props); simpl; [done|].
  destruct (generatePDFExtractorHTMLOffline _); simpl; done.
Qed.

Lemma loadHTML_normal g st : (loadHTML props g st).1 = Normal tt.
Proof.
  unfold loadHTML, tryCatch, bind, get.
  pose proof (generateHtml_pure st) as Hp.
  destruct (generateHtml props st) as [[h|e] [st1 out1]]; simpl in *.
  - destruct (mountedOf g st1); simpl; done.
  - destruct (mountedOf g st1); simpl; done.
Qed.

Lemma handleMessage_normal data st : (handleMessage data st).1 = Normal tt.
Proof.
  unfold handleMessage, tryCatch, bind, get, call. simpl.
  destruct (hasExtracted st); simpl; [done|].
  destruct (parseExtractionResult data); simpl; done.
Qed.

Lemma handleError_normal d st : (handleError d st).1 = Normal tt.
Proof.
  unfold handleError, bind, get. simpl.
  destruct (hasExtracted st); simpl; done.
Qed.

Lemma step_normal ev st : (step props ev st).1 = Normal tt.
Proof.
  destruct ev as [|g| |data|d]; simpl.
  - done.
  - apply loadHTML_normal.
  - done.
  - unfold bind, get. simpl.
    pose proof (handleMessage_normal data st) as Hm.
    destruct (webViewRendered st); simpl; [|done].
    destruct (handleMessage data st) as [[[]|e] [st1 out1]]; simpl in *; done.
  - unfold bind, get. simpl.
    pose proof (handleError_normal d st) as Hm.
    destruct (webViewRendered st); simpl; [|done].
    destruct (handleError d st) as [[[]|e] [st1 out1]]; simpl in *; done.
Qed.

Lemma run_normal evs st : (run props evs st).1 = Normal tt.
Proof.
  revert st. induction evs as [|ev evs IH]; intros st; simpl; [done|].
  unfold bind. pose proof (step_normal ev st) as Hs.
  destruct (step props ev st) as [[[]|e] [st1 out1]]; simpl in *; [|done].
  specialize (IH st1).
  destruct (run props evs st1) as [r [st2 out2]]; simpl in *. done.
Qed.

(** Once [hasExtracted] is set, the guard suppresses every later message
    and error of the [WebView]. *)
Lemma run_after_extraction evs st :
  hasExtracted st = true → Forall fromWebView evs →
  run props evs st = (Normal tt, (st, [])).
Proof.
  intros Hx Hevs. induction Hevs as [|ev evs Hev _ IH]; [done|].
  simpl. unfold bind.
  assert (step props ev st = (Normal tt, (st, []))) as ->.
  { destruct ev as [|g| |data|d]; simpl in Hev; try done;
      unfold step, handleMessage, handleError, bind, get; simpl;
      destruct (webViewRendered st); simpl; rewrite ?Hx; done. }
  by rewrite IH.
Qed.

(** A message that parses sets the guard and is the last callback. *)
Lemma parsed_message_is_final data r evs st :
  webViewRendered st = true → hasExtracted st = false →
  parseExtractionResult data = Normal r → Forall fromWebView evs →
  callbacks (run props (Message data :: evs) st).2.2 = [r].
Proof.
  intros Hw Hx Hp Hevs.
  change (run props (Message data :: evs))
    with (bind (step props (Message data)) (λ _, run props evs)).
  unfold bind at 1.
  assert (step props (Message data) st
          = (Normal tt, (set_hasExtracted true st, [OnExtracted r]))) as ->.
  { unfold step, handleMessage, tryCatch, bind, get, call. simpl.
    by rewrite Hw, Hx, Hp. }
  by rewrite run_after_extraction.
Qed.

End ExtractorFacts.

Section ExtractorClaims.
Import Js Extractor.

(** No handler of the two extraction components throws: whatever the
    service calls do, every event is handled to a normal completion.
    Each adapter error that reaches a component which has not yet
    delivered its result is turned into one call of the completion
    callback with [success = false], empty text and a message naming the
    error: (1) both HTML generators throwing in a run of the effect that
    is still mounted, (2) a [WebView] load error, (3) a message
    [parseExtractionResult] rejects, (4) a render error of the [Pdf] view
    in the OCR fallback.  Of the four, (3) alone leaves the guard of its
    component unset. *)
Lemma adapter_errors_are_caught
    (svc : PDFJSExtractorService) (props : Props) :
  (∀ evs st, (run props evs st).1 = Normal tt)
  ∧ (∀ g st e,
       mountedOf g st = true →
       generatePDFExtractorHTMLOnline (pdfBase64 props) = Throw e →
       (forceOnline props = true
        ∨ ∃ e', generatePDFExtractorHTMLOffline (pdfBase64 props) = Throw e') →
       ∃ r, loadHTML props g st
            = (Normal tt,
               (set_loading false (set_loadError (Some (message e)) st),
                [OnExtracted r]))
          ∧ isFailure r (lit "Failed to initialize PDF.js: " ++ message e))
  ∧ (∀ st description,
       hasExtracted st = false →
       ∃ r, handleError description st
            = (Normal tt, (set_hasExtracted true st, [OnExtracted r]))
          ∧ isFailure r (lit "WebView failed to load: "
                         ++ orElse description (lit "Unknown error")))
  ∧ (∀ st data e,
       hasExtracted st = false →
       parseExtractionResult data = Throw e →
       ∃ r, handleMessage data st = (Normal tt, (st, [OnExtracted r]))
          ∧ isFailure r (lit "Failed to parse extraction result"))
  ∧ (∀ maxPages st m,
       OCRFallback.hasCompleted st = false →
       ∃ r, OCRFallback.handleError m st
            = (OCRFallback.set_hasCompleted st, [OCRFallback.OnComplete r])
          ∧ OCRFallback.success r = false
          ∧ OCRFallback.text r = []
          ∧ OCRFallback.error r
            = Some (lit "Failed to render PDF for OCR: "
                    ++ orElse m (lit "Unknown error"))
          ∧ OCRFallback.step maxPages st (OCRFallback.PdfError m)
            = (OCRFallback.set_hasCompleted st, [OCRFallback.OnComplete r])).
Proof.
  split; [intros evs st; apply run_normal|].
  split.
  { intros g st e Hm Hon Hoff.
    assert (generateHtml props st = (Throw e, (st, []))) as Hg.
    { unfold generateHtml, tryCatch, call.
      destruct (forceOnline props); simpl.
      - by rewrite Hon.
      - destruct Hoff as [?|[e' He']]; [done|].
        rewrite He'. simpl. by rewrite Hon. }
    unfold loadHTML, tryCatch, bind, get. rewrite Hg. simpl. rewrite Hm. simpl.
    eexists. split; [reflexivity|].
    repeat split. discriminate. }
  split.
  { intros st d Hx. unfold handleError, bind, get. simpl. rewrite Hx. simpl.
    eexists. split; [reflexivity|].
    repeat split. discriminate. }
  split.
  { intros st data e Hx Hp.
    unfold handleMessage, tryCatch, bind, get, call. simpl. rewrite Hx, Hp. simpl.
    eexists. split; [reflexivity|].
    repeat split. discriminate. }
  intros maxPages st m Hc.
  unfold OCRFallback.step, OCRFallback.handle, OCRFallback.handleError.
  rewrite Hc. eexists. split; [reflexivity|].
  repeat split.
  unfold OCRFallback.depsChanged. simpl.
  by rewrite eqb_reflx, !Nat.eqb_refl.
Qed.

(** A [WebView] load error is terminal for the extractor: it sets the
    guard, and no later message or error of the [WebView] calls back. *)
Lemma webview_error_is_terminal
    (svc : PDFJSExtractorService) (props : Props) st description evs :
  webViewRendered st = true → hasExtracted st = false →
  Forall fromWebView evs →
  callbacks (run props (WebViewError description :: evs) st).2.2
  = [failed (lit "WebView failed to load: "
             ++ orElse description (lit "Unknown error"))].
Proof.
  intros Hw Hx Hevs.
  change (run props (WebViewError description :: evs))
    with (bind (step props (WebViewError description)) (λ _, run props evs)).
  unfold bind at 1.
  assert (step props (WebViewError description) st
          = (Normal tt,
             (set_hasExtracted true st,
              [OnExtracted (failed (lit "WebView failed to load: "
                                    ++ orElse description (lit "Unknown error")))])))
    as ->.
  { unfold step, handleError, bind, get. simpl. by rewrite Hw, Hx. }
  by rewrite run_after_extraction.
Qed.

(** C5 fails for one of its four errors.  Every adapter error is caught
    and delivered as a failure result, but the result for a message that
    [parseExtractionResult] rejects is not terminal: the [catch] of
    [handleMessage] leaves [hasExtracted] unset, so a later message that
    parses passes the guard and is delivered as well.  The component
    hands its caller a failure and then a second result. *)
Theorem parse_failure_result_is_not_terminal
    (svc : PDFJSExtractorService) (props : Props) st d1 d2 e r :
  webViewRendered st = true →
  hasExtracted st = false →
  parseExtractionResult d1 = Throw e →
  parseExtractionResult d2 = Normal r →
  run props [Message d1; Message d2] st
  = (Normal tt,
     (set_hasExtracted true st,
      [OnExtracted (failed (lit "Failed to parse extraction result"));
       OnExtracted r])).
Proof.
  intros Hw Hx H1 H2.
  unfold run, step, handleMessage, tryCatch, bind, get, call. simpl.
  rewrite Hw, Hx, H1. simpl. rewrite Hw, Hx, H2. simpl. done.
Qed.

Lemma parse_failure_result_is_not_terminal_witness :
  let props := {| pdfBase64 := lit "JVBERi0x"; forceOnline := false |} in
  let st := (@run exampleService props [Mount; LoadHTML 0] initial).2.1 in
  webViewRendered st = true
  ∧ hasExtracted st = false
  ∧ callbacks (@run exampleService props
                 [Message (lit "<html>"); Message (lit "{later}")] st).2.2
    = [ failed (lit "Failed to parse extraction result");
        {| success := true; text := lit "{later}"; error := None;
           charCount := 7 |} ].
Proof.
  intros props st.
  assert (webViewRendered st = true) as Hw by reflexivity.
  assert (hasExtracted st = false) as Hx by reflexivity.
  split; [exact Hw|]. split; [exact Hx|].
  rewrite (parse_failure_result_is_not_terminal exampleService props st
             (lit "<html>") (lit "{later}") _ _ Hw Hx eq_refl eq_refl).
  reflexivity.
Defined.

(** C10 fails for the PDF.js extractor.  The [catch] of [handleMessage]
    calls [onExtracted] without setting [hasExtracted], so a second
    message still passes the guard: two messages that
    [parseExtractionResult] rejects call [onExtracted] twice. *)
Theorem unparseable_messages_call_back_twice
    (svc : PDFJSExtractorService) (props : Props) st d1 d2 e1 e2 :
  webViewRendered st = true →
  hasExtracted st = false →
  parseExtractionResult d1 = Throw e1 →
  parseExtractionResult d2 = Throw e2 →
  callbacks (run props [Message d1; Message d2] st).2.2
  = [failed (lit "Failed to parse extraction result");
     failed (lit "Failed to parse extraction result")].
Proof.
  intros Hw Hx H1 H2.
  unfold run, step, handleMessage, tryCatch, bind, get, call. simpl.
  rewrite Hw, Hx, H1. simpl. rewrite Hw, Hx, H2. simpl. done.
Qed.

Lemma unparseable_messages_call_back_twice_witness :
  let props := {| pdfBase64 := lit "JVBERi0x"; forceOnline := false |} in
  let st := (@run exampleService props [Mount; LoadHTML 0] initial).2.1 in
  webViewRendered st = true
  ∧ hasExtracted st = false
  ∧ length (callbacks
              (@run exampleService props
                 [Message (lit "<html>"); Message (lit "undefined")] st).2.2) = 2.
Proof.
  intros props st.
  assert (webViewRendered st = true) as Hw by reflexivity.
  assert (hasExtracted st = false) as Hx by reflexivity.
  split; [exact Hw|]. split; [exact Hx|].
  rewrite (unparseable_messages_call_back_twice exampleService props st
             (lit "<html>") (lit "undefined") _ _ Hw Hx eq_refl eq_refl).
  reflexivity.
Defined.

End ExtractorClaims.

(** ** Routing of the structured result *)

Section ScreenClaims.
Import Js Screens.

(** C1.  On both screens a structured result is accepted (handed to
    [createFromText], whose document becomes the active one when the
    service calls of the handler return) exactly when it reports success
    with more than 50 code units of text.  On [pdf-qa.tsx] any other
    result raises the "PDF Extraction Issue" alert.  On the Ask screen no
    other result is ever accepted, whatever [needsOCRFallback] answers,
    and the handler follows that answer: on [true] it switches the OCR
    fallback on and accepts nothing; on [false] it accepts a viable
    result, leaving the OCR component unmounted, and does nothing at all
    with any other.  The fallback decision of the design answers [true]
    exactly for the results that are not viable; with it an accepted
    result leaves the OCR component unmounted, and any other result
    switches the OCR fallback on. *)
Theorem structured_result_routing (svc : PDFQAService)
    (result : Extractor.PDFJSExtractionResult) :
  (∀ st,
     let out := PdfQa.handlePDFJSExtraction result st in
     if viable result
     then accepted out.2 = [Extractor.text result]
          ∧ (∀ doc, createFromText (Extractor.text result) (PdfQa.pendingPdfName st)
                    = Normal doc → PdfQa.activeDoc out.1 = Some doc)
     else accepted out.2 = []
          ∧ PdfQa.activeDoc out.1 = PdfQa.activeDoc st
          ∧ alerts out.2 = [lit "PDF Extraction Issue"])
  ∧ (∀ needsOCRFallback st,
       viable result = false →
       let out := Ask.handlePDFJSExtraction needsOCRFallback result st in
       accepted out.2 = [] ∧ Ask.activeDoc out.1 = Ask.activeDoc st)
  ∧ (∀ needsOCRFallback st,
       let out := Ask.handlePDFJSExtraction needsOCRFallback result st in
       if needsOCRFallback result
       then accepted out.2 = []
            ∧ Ask.activeDoc out.1 = Ask.activeDoc st
            ∧ Ask.useOCRFallback out.1 = true
            ∧ Ask.pdfBase64 out.1 = None
            ∧ Ask.ocrFallbackMounted out.1 = truthy (Ask.pendingPdfUri st)
       else if viable result
       then accepted out.2 = [Extractor.text result]
            ∧ (∀ doc stats,
                 createFromText (Extractor.text result) (Ask.pendingPdfName st)
                 = Normal doc →
                 getRAGStats = Normal stats →
                 Ask.activeDoc out.1 = Some doc ∧ alerts out.2 = [])
            ∧ (∀ doc e,
                 createFromText (Extractor.text result) (Ask.pendingPdfName st)
                 = Normal doc →
                 getRAGStats = Throw e →
                 Ask.activeDoc out.1 = Ask.activeDoc st
                 ∧ alerts out.2 = [lit "Error"])
            ∧ Ask.useOCRFallback out.1 = Ask.useOCRFallback st
            ∧ Ask.ocrFallbackMounted out.1 = false
       else out = (st, []))
  ∧ Ask.needsOCRFallback_spec result = negb (viable result)
  ∧ (∀ st,
       let out := Ask.handlePDFJSExtraction Ask.needsOCRFallback_spec result st in
       if viable result
       then accepted out.2 = [Extractor.text result]
            ∧ (∀ doc stats,
                 createFromText (Extractor.text result) (Ask.pendingPdfName st)
                 = Normal doc →
                 getRAGStats = Normal stats →
                 Ask.activeDoc out.1 = Some doc)
            ∧ Ask.useOCRFallback out.1 = Ask.useOCRFallback st
            ∧ Ask.ocrFallbackMounted out.1 = false
       else accepted out.2 = []
            ∧ Ask.activeDoc out.1 = Ask.activeDoc st
            ∧ Ask.useOCRFallback out.1 = true
            ∧ Ask.pdfBase64 out.1 = None
            ∧ Ask.ocrFallbackMounted out.1 = truthy (Ask.pendingPdfUri st)).
Proof.
  assert (Ask.needsOCRFallback_spec result = negb (viable result)) as Hspec.
  { unfold viable, Ask.needsOCRFallback_spec.
    destruct (Extractor.success result); simpl; [|done].
    destruct (50 <? length (Extractor.text result)) eqn:Hlen; simpl.
    - apply Nat.leb_gt. by apply Nat.ltb_lt.
    - apply Nat.leb_le. apply Nat.ltb_ge in Hlen. lia. }
  assert (∀ needsOCRFallback st,
            let out := Ask.handlePDFJSExtraction needsOCRFallback result st in
            if needsOCRFallback result
            then accepted out.2 = []
                 ∧ Ask.activeDoc out.1 = Ask.activeDoc st
                 ∧ Ask.useOCRFallback out.1 = true
                 ∧ Ask.pdfBase64 out.1 = None
                 ∧ Ask.ocrFallbackMounted out.1 = truthy (Ask.pendingPdfUri st)
            else if viable result
            then accepted out.2 = [Extractor.text result]
                 ∧ (∀ doc stats,
                      createFromText (Extractor.text result) (Ask.pendingPdfName st)
                      = Normal doc →
                      getRAGStats = Normal stats →
                      Ask.activeDoc out.1 = Some doc ∧ alerts out.2 = [])
                 ∧ (∀ doc e,
                      createFromText (Extractor.text result) (Ask.pendingPdfName st)
                      = Normal doc →
                      getRAGStats = Throw e →
                      Ask.activeDoc out.1 = Ask.activeDoc st
                      ∧ alerts out.2 = [lit "Error"])
                 ∧ Ask.useOCRFallback out.1 = Ask.useOCRFallback st
                 ∧ Ask.ocrFallbackMounted out.1 = false
            else out = (st, [])) as Hcode.
  { intros needs st. cbv zeta. unfold Ask.handlePDFJSExtraction, viable.
    destruct (needs result); [done|].
    destruct (Extractor.success result && (50 <? length (Extractor.text result)));
      [|done].
    unfold Ask.ocrFallbackMounted.
    destruct (createFromText (Extractor.text result) (Ask.pendingPdfName st))
      as [doc|e]; [destruct getRAGStats as [stats|e]|]; simpl;
      rewrite ?andb_false_r; repeat split; intros; simplify_eq; done. }
  split; [|split; [|split; [exact Hcode|split; [exact Hspec|]]]].
  - intros st. unfold PdfQa.handlePDFJSExtraction, viable. simpl.
    destruct (Extractor.success result && (50 <? length (Extractor.text result)));
      simpl.
    + destruct (createFromText (Extractor.text result) (PdfQa.pendingPdfName st));
        simpl; split; try done; congruence.
    + done.
  - intros needs st Hv. specialize (Hcode needs st). cbv zeta in *.
    rewrite Hv in Hcode. destruct (needs result).
    + by destruct Hcode as (? & ? & _).
    + by rewrite Hcode.
  - intros st. specialize (Hcode Ask.needsOCRFallback_spec st). cbv zeta in *.
    rewrite Hspec in Hcode. destruct (viable result); simpl in Hcode.
    + destruct Hcode as (Ha & Hdoc & _ & Hu & Hm).
      repeat split; try done. intros doc stats Hd Hs.
      exact (proj1 (Hdoc doc stats Hd Hs)).
    + exact Hcode.
Qed.

Lemma structured_result_routing_witness :
  let result :=
    {| Extractor.success := true;
       Extractor.text := lit "Photosynthesis converts light energy into chemical energy.";
       Extractor.error := None;
       Extractor.charCount := 58 |} in
  let st :=
    {| Ask.activeDoc := None; Ask.processing := true;
       Ask.pdfBase64 := Some (lit "JVBERi0x"); Ask.pendingPdfName := lit "bio.pdf";
       Ask.pendingPdfUri := lit "file:///bio.pdf"; Ask.useOCRFallback := false |} in
  let out := @Ask.handlePDFJSExtraction exampleQAService
               Ask.needsOCRFallback_spec result st in
  accepted out.2 = [Extractor.text result] ∧ Ask.ocrFallbackMounted out.1 = false.
Proof.
  intros result st out.
  pose proof (proj2 (proj2 (proj2 (proj2
                (structured_result_routing exampleQAService result)))) st)
    as Hr.
  change (viable result) with true in Hr. cbv iota in Hr.
  split; [exact (proj1 Hr) | exact (proj2 (proj2 (proj2 Hr)))].
Defined.

End ScreenClaims.

(** ** The index and the retriever *)

Section RagFacts.
Import Js Rag.
Variable stopwords : list (list N).

Lemma countTerms_pos ts t :
  0 < default 0 (countTerms ts !! t) ↔ t ∈ ts.
Proof.
  induction ts as [|u ts IH]; simpl.
  - rewrite lookup_empty. simpl. split; [lia | by inversion 1].
  - destruct (decide (u = t)) as [->|Hne].
    + rewrite lookup_insert_eq. simpl. split; [by left | lia].
    + rewrite lookup_insert_ne by done. rewrite IH.
      split; [by right | inversion 1; congruence].
Qed.

Lemma addPosting_held t e p : holds p (t, e) → addPosting t e p = p.
Proof.
  intros (s & Hs & He). simpl in *. unfold addPosting. rewrite Hs. simpl.
  apply insert_id. rewrite Hs. f_equal. symmetry.
  apply subseteq_union_1_L. by apply singleton_subseteq_l.
Qed.

Lemma holds_addPosting t e p : holds (addPosting t e p) (t, e).
Proof.
  unfold holds, addPosting. simpl. rewrite lookup_insert_eq.
  eexists. split; [done|]. set_solver.
Qed.

Lemma holds_addPosting_mono t e p x : holds p x → holds (addPosting t e p) x.
Proof.
  intros (s & Hs & He). unfold holds, addPosting.
  destruct (decide (t = x.1)) as [->|Hne].
  - rewrite lookup_insert_eq, Hs. simpl. eexists. split; [done|]. set_solver.
  - rewrite lookup_insert_ne by done. eauto.
Qed.

Lemma holds_addEntries_mono es p x : holds p x → holds (addEntries es p) x.
Proof.
  revert p. induction es as [|e es IH]; intros p Hx; simpl; [done|].
  apply IH. by apply holds_addPosting_mono.
Qed.

Lemma holds_addEntries es p x : x ∈ es → holds (addEntries es p) x.
Proof.
  revert p. induction es as [|e es IH]; intros p Hx; simpl.
  - by inversion Hx.
  - apply elem_of_cons in Hx as [->|Hx]; [|by apply IH].
    apply holds_addEntries_mono. destruct e as [t e]. apply holds_addPosting.
Qed.

Lemma addEntries_held es p : (∀ x, x ∈ es → holds p x) → addEntries es p = p.
Proof.
  revert p. induction es as [|e es IH]; intros p Hes; simpl; [done|].
  destruct e as [t e]. simpl.
  rewrite addPosting_held by (apply Hes; left).
  apply IH. intros x Hx. apply Hes. by right.
Qed.

(** The scenario of the design: the one-chunk document about cats,
    queried for "fur", returns that chunk alone. *)
Example retrieve_fur :
  (λ r, id r.1) <$>
    retrieve exampleStopwords exampleIdf
      (build exampleStopwords 1 [catsChunk]) (lit "fur") 3 = [0].
Proof. vm_compute. reflexivity. Qed.

Example retrieve_ranked :
  (λ r, id r.1) <$>
    retrieve exampleStopwords exampleIdf
      (build exampleStopwords 1 [dogsChunk; catsChunk]) (lit "Do cats have fur?") 3
  = [0; 1].
Proof. vm_compute. reflexivity. Qed.

(** Querying an index of zero chunks returns the empty result. *)
Lemma retrieve_empty_index idf doc question k :
  retrieve stopwords idf (build stopwords doc []) question k = [].
Proof. unfold retrieve. simpl. by destruct k. Qed.

End RagFacts.

Section RagClaims.
Import Js Rag.

(** C8.  [retrieve] returns at most [k] results; it returns exactly the
    [k] best candidates, or all candidates when fewer than [k] chunks
    share a term with the question (no padding); every returned chunk is
    a chunk of the index that shares a term with the question, and in an
    index made by [build] that term occurs in the chunk's text. *)
Theorem retrieve_bounded_and_relevant stopwords idf idx question k :
  let results := retrieve stopwords idf idx question k in
  let qterms := tokenize stopwords question in
  length results ≤ k
  ∧ length results = Nat.min k (length (filter (sharesTerm qterms) (chunks idx)))
  ∧ (∀ c s, (c, s) ∈ results →
       c ∈ chunks idx ∧ ∃ t, t ∈ qterms ∧ 0 < termFrequency c t)
  ∧ (∀ doc cs c s,
       idx = build stopwords doc cs → (c, s) ∈ results →
       ∃ t, t ∈ qterms ∧ t ∈ tokenize stopwords (text c)).
Proof.
  intros results qterms.
  assert (∀ c s, (c, s) ∈ results →
            c ∈ chunks idx ∧ ∃ t, t ∈ qterms ∧ 0 < termFrequency c t) as Hrel.
  { intros c s Hin. unfold results, retrieve in Hin.
    apply subseteq_take in Hin.
    rewrite merge_sort_Permutation in Hin.
    apply list_elem_of_fmap in Hin as (c' & Heq & Hc').
    injection Heq as -> _.
    apply list_elem_of_filter in Hc' as [Hshare Hc'].
    split; [done|]. by apply Exists_exists in Hshare. }
  split; [unfold results, retrieve; rewrite length_take; lia|].
  split.
  { unfold results, retrieve. rewrite length_take.
    rewrite merge_sort_Permutation, length_fmap. reflexivity. }
  split; [exact Hrel|].
  intros doc cs c s -> Hin.
  destruct (Hrel c s Hin) as [Hc (t & Ht & Hpos)].
  exists t. split; [done|].
  simpl in Hc. apply list_elem_of_fmap in Hc as (c0 & -> & _).
  unfold termFrequency in Hpos. simpl in *. by apply countTerms_pos in Hpos.
Qed.

(** C9.  Re-indexing is idempotent: building the index again from the
    chunk sequence an index holds gives the same index, postings
    included, and indexing the same chunks once more into postings that
    already hold them leaves the postings as they are. *)
Theorem reindexing_is_idempotent stopwords doc cs :
  build stopwords doc (chunks (build stopwords doc cs)) = build stopwords doc cs
  ∧ postings (build stopwords doc (chunks (build stopwords doc cs)))
    = postings (build stopwords doc cs)
  ∧ indexInto stopwords (postings (build stopwords doc cs)) cs
    = postings (build stopwords doc cs).
Proof.
  assert (build stopwords doc (chunks (build stopwords doc cs))
          = build stopwords doc cs) as Hb.
  { unfold build, indexInto. simpl. f_equal.
    - rewrite <- list_fmap_compose. apply list_fmap_ext. intros _ c _. reflexivity.
    - f_equal. rewrite list_fmap_bind. reflexivity. }
  split; [exact Hb|]. split; [by rewrite Hb|].
  unfold build, indexInto. simpl.
  apply addEntries_held. intros x Hx. by apply holds_addEntries.
Qed.

End RagClaims.

(** * Further properties *)

(** ** The OCR fallback component *)

Section OCRFallbackMore.
Import Js OCRFallback OCRAccumulator.

Lemma entriesBelow_mono b b' texts :
  b ≤ b' → entriesBelow b texts → entriesBelow b' texts.
Proof.
  intros Hb (pts & -> & Hs & Hall). exists pts. repeat split; auto.
  eapply Forall_impl; [exact Hall|]. simpl. intros pt (? & ? & ?).
  repeat split; auto; lia.
Qed.

Lemma entriesBelow_tryPage k o texts :
  1 ≤ k → entriesBelow k texts → entriesBelow (k + 1) (tryPage k o texts).
Proof.
  intros Hk Hin.
  destruct o as [| | |pageText]; simpl;
    try (apply (entriesBelow_mono k); [lia | done]).
  destruct (truthy (trim pageText)) eqn:Ht;
    [|apply (entriesBelow_mono k); [lia | done]].
  destruct Hin as (pts & -> & Hs & Hall).
  exists (pts ++ [(k, pageText)]). split; [by rewrite fmap_app|]. split.
  - rewrite fmap_app. simpl.
    induction pts as [|pt pts IH]; simpl.
    + repeat constructor.
    + apply StronglySorted_inv in Hs as [Hs Hlt].
      apply Forall_cons in Hall as [(? & ? & ?) Hall].
      constructor; [by apply IH|].
      rewrite Forall_app. split; [done|]. by repeat constructor.
  - rewrite Forall_app. split.
    + eapply Forall_impl; [exact Hall|]. simpl. intros pt (? & ? & ?).
      repeat split; auto; lia.
    + repeat constructor; simpl; auto; lia.
Qed.

Lemma step_accumulator maxPages n k st ev :
  inOrder maxPages n k st → accumulatorOk k st → eventFor n ev →
  ∃ k', inOrder maxPages n k' (step maxPages st ev).1
      ∧ accumulatorOk k' (step maxPages st ev).1.
Proof.
  intros (Htot & Hk & Hrun) Hacc Hev.
  destruct (step maxPages st ev) as [st' out] eqn:Hstep.
  unfold step, handle, effect, processCurrentPage_start, handleLoadComplete,
    handlePageChanged, handleError, processCurrentPage_resume,
    finishExtraction in Hstep.
  unfold accumulatorOk in Hacc.
  destruct ev as [m|p|m|o]; simpl in Hev; [subst m| | |];
    destruct (running st) as [cl|] eqn:Hr; simpl in Hstep;
    repeat (match type of Hstep with
            | context [if ?b then _ else _] => destruct b eqn:?
            end; simpl in Hstep);
    injection Hstep as <- <-; bool_hyps; unfold inOrder, accumulatorOk; simpl;
    rewrite ?Hr;
    try (exists k; split; [intuition (try congruence; try lia) | done]; fail).
  all: try (exists (k + 1); split; [intuition (try congruence; try lia) | done]; fail).
  all: destruct Hrun as (? & Hcl & Hcn & ? & ?); rewrite ?Hcl, ?Hcn in *.
  all: exists k; split; [intuition (try congruence; try lia)
                        | by apply entriesBelow_tryPage].
Qed.

Lemma run_accumulator maxPages n evs :
  Forall (eventFor n) evs →
  ∀ k st, inOrder maxPages n k st → accumulatorOk k st →
  ∃ k', inOrder maxPages n k' (run maxPages st evs).1
      ∧ accumulatorOk k' (run maxPages st evs).1.
Proof.
  induction 1 as [|ev evs Hev _ IH]; intros k st Hin Hacc; simpl; [eauto|].
  destruct (step_accumulator maxPages n k st ev Hin Hacc Hev) as (k1 & Hin1 & Hacc1).
  destruct (step maxPages st ev) as [st1 out1]; simpl in *.
  destruct (IH k1 st1 Hin1 Hacc1) as (k2 & Hin2 & Hacc2).
  destruct (run maxPages st1 evs) as [st2 out2]; simpl in *. eauto.
Qed.

(** X1.  Whatever events reach the component, in whatever state, it
    calls [onComplete] at most once, never again once [hasCompleted] is
    set, and after a completion no event enters another page or produces
    any output. *)
Theorem ocr_completes_at_most_once maxPages st evs :
  length (completions (run maxPages st evs).2)
  ≤ (if hasCompleted st then 0 else 1)
  ∧ ∀ evs', completions (run maxPages st evs).2 ≠ [] →
            (run maxPages (run maxPages st evs).1 evs').2 = [].
Proof.
  split; [apply run_completes_once|].
  intros evs' Hdone.
  assert (hasCompleted (run maxPages st evs).1 = true) as Hc.
  { clear evs'. revert st Hdone.
    induction evs as [|ev evs IH]; intros st Hdone; simpl in *; [done|].
    destruct (step_completes_once maxPages st ev) as [_ H2].
    pose proof (run_after_completion maxPages (step maxPages st ev).1 evs) as Hafter.
    specialize (IH (step maxPages st ev).1).
    destruct (step maxPages st ev) as [st1 out1]; simpl in *.
    destruct (run maxPages st1 evs) as [st2 out2]; simpl in *.
    unfold completions in *. rewrite omap_app in Hdone.
    destruct (omap _ out1) eqn:Ho; simpl in *.
    - by apply IH.
    - apply Hafter. apply H2. by right. }
  by apply run_after_completion.
Qed.

(** X2.  Whatever the [Pdf] view sends for a document of [n] pages, the
    accumulator [extractedTextsRef.current] always holds page entries
    only: each is the marker line of a page followed by that page's
    non-blank text, the pages are strictly ascending (no page twice, none
    out of order) and lie between 1 and the last page to process. *)
Theorem accumulator_holds_entries_in_page_order maxPages n evs :
  Forall (eventFor n) evs →
  ∃ pts : list (nat * list N),
    extractedTexts (run maxPages initial evs).1
    = (λ pt, pageEntry pt.1 pt.2) <$> pts
    ∧ StronglySorted lt (pts.*1)
    ∧ Forall (λ pt, 1 ≤ pt.1 ≤ Nat.max 1 (Nat.min n maxPages)
                    ∧ Exists (λ c, isWhiteSpace c = false) pt.2) pts.
Proof.
  intros Hevs.
  destruct (run_accumulator maxPages n evs Hevs 0 initial
              (initial_in_order maxPages n)) as (k & Hin & Hacc).
  { exists []. repeat split; constructor. }
  destruct Hin as (_ & Hk & _).
  apply (entriesBelow_mono _ (Nat.max 1 (Nat.min n maxPages) + 1)) in Hacc;
    [|destruct (running _); lia].
  destruct Hacc as (pts & Htexts & Hsorted & Hall).
  exists pts. split; [done|]. split; [done|].
  eapply Forall_impl; [exact Hall|]. simpl.
  intros [pg t] (H1 & Hlt & Ht). simpl in *. split; [lia|].
  apply Exists_exists.
  destruct (decide (Forall (λ c, isWhiteSpace c = true) t)) as [Hb|Hb].
  - apply trim_blank in Hb. congruence.
  - apply not_Forall_Exists in Hb; [|intros c; apply _].
    apply Exists_exists in Hb as (c & Hc & Hw). exists c. split; [done|].
    by apply not_true_is_false.
Qed.

Lemma accumulator_holds_entries_in_page_order_witness :
  let evs := [PageChanged 1; LoadComplete 2; PageDone (Recognized (lit "one"));
              PageChanged 1; PageChanged 2; PageDone (Recognized (lit " "));
              PageDone (Recognized (lit "late"))] in
  Forall (eventFor 2) evs
  ∧ ∃ pts : list (nat * list N),
      extractedTexts (run 10 initial evs).1 = (λ pt, pageEntry pt.1 pt.2) <$> pts
      ∧ StronglySorted lt (pts.*1)
      ∧ Forall (λ pt, 1 ≤ pt.1 ≤ Nat.max 1 (Nat.min 2 10)
                      ∧ Exists (λ c, isWhiteSpace c = false) pt.2) pts.
Proof.
  intros evs.
  assert (Forall (eventFor 2) evs) as Hevs by (repeat constructor).
  split; [exact Hevs|].
  exact (accumulator_holds_entries_in_page_order 10 2 evs Hevs).
Defined.










(** X5.  The page count and the readiness of the first page may arrive
    in either order: the component reaches the same state with the same
    outputs, and processing of page 1 starts exactly when both are in
    (and the count is not 0). *)
Theorem load_and_ready_commute maxPages n page :
  run maxPages initial [PageChanged page; LoadComplete n]
  = run maxPages initial [LoadComplete n; PageChanged page]
  ∧ pagesProcessed (run maxPages initial [LoadComplete n; PageChanged page]).2
    = (if n =? 0 then [] else [1])
  ∧ pagesProcessed (run maxPages initial [LoadComplete n]).2 = []
  ∧ pagesProcessed (run maxPages initial [PageChanged page]).2 = [].
Proof.
  destruct n as [|n]; repeat split; reflexivity.
Qed.

End OCRFallbackMore.

(** ** The PDF.js extractor *)

Section ExtractorMore.
Import Js Extractor ExtractorRuns.

Lemma run_unrendered `{PDFJSExtractorService} props evs st :
  webViewRendered st = false → Forall fromWebView evs →
  run props evs st = (Normal tt, (st, [])).
Proof.
  intros Hw Hevs. induction Hevs as [|ev evs Hev _ IH]; [done|].
  simpl. unfold bind.
  assert (step props ev st = (Normal tt, (st, []))) as ->.
  { destruct ev as [|g| |data|d]; simpl in Hev; try done;
      unfold step, bind, get; simpl; by rewrite Hw. }
  by rewrite IH.
Qed.

Lemma parsable_fromWebView `{PDFJSExtractorService} evs :
  Forall parsable evs → Forall fromWebView evs.
Proof.
  intros Hevs. eapply Forall_impl; [exact Hevs|].
  intros [| | |data|d]; simpl; auto.
Qed.

Lemma run_parsable `{PDFJSExtractorService} props evs :
  Forall parsable evs →
  ∀ st, length (callbacks (run props evs st).2.2)
        ≤ (if hasExtracted st then 0 else 1).
Proof.
  induction 1 as [|ev evs Hev Hevs IH]; intros st.
  { simpl. destruct (hasExtracted st); simpl; lia. }
  destruct (hasExtracted st) eqn:Hx.
  { rewrite run_after_extraction; [simpl; lia | done |].
    constructor; [|by apply parsable_fromWebView].
    destruct ev; simpl in *; auto. }
  change (run props (ev :: evs)) with (bind (step props ev) (λ _, run props evs)).
  unfold bind at 1.
  assert (step props ev st = (Normal tt, (st, []))
          ∨ ∃ r, step props ev st
                 = (Normal tt, (set_hasExtracted true st, [OnExtracted r]))) as Hs.
  { destruct ev as [| | |data|d]; simpl in Hev; try done.
    - destruct Hev as [r Hr]. unfold step, handleMessage, tryCatch, bind, get, call.
      simpl. destruct (webViewRendered st); simpl; [|by left].
      rewrite Hx, Hr. simpl. right. eauto.
    - unfold step, handleError, bind, get. simpl.
      destruct (webViewRendered st); simpl; [|by left].
      rewrite Hx. simpl. right. eauto. }
  destruct Hs as [-> | [r ->]].
  - specialize (IH st). rewrite Hx in IH.
    destruct (run props evs st) as [c [st2 out2]]; simpl in *. done.
  - rewrite run_after_extraction by (by apply parsable_fromWebView || done).
    simpl. lia.
Qed.

(** The [loadHTML] of a run whose [mounted] is cleared does nothing. *)
Lemma loadHTML_unmounted `{PDFJSExtractorService} props g st :
  mountedOf g st = false →
  loadHTML props g st = (Normal tt, (st, [])).
Proof.
  intros Hm. unfold loadHTML, tryCatch, bind, get.
  pose proof (generateHtml_pure props st) as Hp.
  destruct (generateHtml props st) as [[h|e] [st1 out1]]; simpl in *;
    injection Hp as -> ->; rewrite Hm; reflexivity.
Qed.

(** Only a run of the effect and its cleanup touch the [mounted]
    variables: the one adds a fresh variable, the other clears the
    latest. *)
Lemma step_mounted `{PDFJSExtractorService} props ev st :
  mounted (step props ev st).2.1
  = match ev with
    | Mount => mounted st ++ [true]
    | Unmount => <[pred (length (mounted st)) := false]> (mounted st)
    | LoadHTML _ | Message _ | WebViewError _ => mounted st
    end.
Proof.
  destruct ev as [|g| |data|d]; try done.
  - unfold step, loadHTML, tryCatch, bind, get.
    pose proof (generateHtml_pure props st) as Hp.
    destruct (generateHtml props st) as [[h|e] [st1 out1]]; simpl in *;
      injection Hp as -> ->; destruct (mountedOf g st); reflexivity.
  - unfold step, handleMessage, tryCatch, bind, get, call. simpl.
    destruct (webViewRendered st); simpl; [|done].
    destruct (hasExtracted st); simpl; [done|].
    destruct (parseExtractionResult data); reflexivity.
  - unfold step, handleError, bind, get. simpl.
    destruct (webViewRendered st); simpl; [|done].
    destruct (hasExtracted st); reflexivity.
Qed.

(** A [mounted] variable that is cleared stays cleared. *)
Lemma run_keeps_cleaned_up `{PDFJSExtractorService} props evs :
  ∀ st g, g < length (mounted st) → mountedOf g st = false →
          mountedOf g (run props evs st).2.1 = false.
Proof.
  induction evs as [|ev evs IH]; intros st g Hg Hm; [done|].
  change (run props (ev :: evs)) with (bind (step props ev) (λ _, run props evs)).
  unfold bind at 1.
  pose proof (step_normal props ev st) as Hn.
  pose proof (step_mounted props ev st) as Hs.
  destruct (step props ev st) as [[[]|e] [st1 out1]]; simpl in Hn, Hs; [|done].
  assert (g < length (mounted st1) ∧ mountedOf g st1 = false) as [Hg1 Hm1].
  { unfold mountedOf in *. rewrite Hs.
    destruct ev as [|g'| |data|d]; try done.
    - rewrite length_app, lookup_app_l by done. split; [lia|done].
    - rewrite length_insert. split; [done|].
      destruct (decide (pred (length (mounted st)) = g)) as [<-|Hne].
      + by rewrite list_lookup_insert_eq.
      + by rewrite list_lookup_insert_ne. }
  specialize (IH st1 g Hg1 Hm1).
  destruct (run props evs st1) as [c [st2 out2]]. done.
Qed.

(** X6.  Once a run of the effect has been cleaned up, its [loadHTML]
    does nothing whenever it ends, also after the effect has run again
    and whatever else has happened since: no state cell changes and
    [onExtracted] is not called, whether the generators returned or
    threw. *)
Theorem cleaned_up_loadHTML_is_silent
    (svc : PDFJSExtractorService) props st g evs :
  length (mounted st) = S g →
  loadHTML props g (run props (Unmount :: evs) st).2.1
  = (Normal tt, ((run props (Unmount :: evs) st).2.1, [])).
Proof.
  intros Hlen. apply loadHTML_unmounted.
  change (run props (Unmount :: evs)) with (bind unmount (λ _, run props evs)).
  unfold bind at 1, unmount, modify. cbv beta iota.
  set (st1 := set_mounted _ st).
  assert (g < length (mounted st1) ∧ mountedOf g st1 = false) as [Hg Hm].
  { subst st1. unfold mountedOf. simpl. rewrite length_insert, Hlen. simpl.
    split; [lia|]. rewrite list_lookup_insert_eq by lia. done. }
  pose proof (run_keeps_cleaned_up props evs st1 g Hg Hm) as Hr.
  destruct (run props evs st1) as [c [st2 out2]]. done.
Qed.

Lemma cleaned_up_loadHTML_is_silent_witness :
  let props := {| pdfBase64 := lit "JVBERi0x"; forceOnline := false |} in
  let st := (@run brokenService props [Mount] initial).2.1 in
  let st' := (@run brokenService props [Unmount; Mount] st).2.1 in
  length (mounted st) = 1
  ∧ @loadHTML brokenService props 0 st' = (Normal tt, (st', []))
  ∧ callbacks (@run brokenService props
                 [Mount; Unmount; Mount; LoadHTML 0; LoadHTML 1] initial).2.2
    = [failed (lit "Failed to initialize PDF.js: " ++ lit "Out of memory")].
Proof.
  intros props st st'.
  assert (length (mounted st) = 1) as Hlen by reflexivity.
  split; [exact Hlen|].
  split; [|reflexivity].
  exact (cleaned_up_loadHTML_is_silent brokenService props st 0 [Mount] Hlen).
Defined.

(** X7.  A failure of the bundled (offline) generator alone is never
    reported: whenever the CDN generator returns, a mounted [loadHTML]
    calls no callback, records no [loadError], and hands the [WebView]
    the bundled page if that was tried and returned, the CDN page
    otherwise. *)
Theorem offline_failure_falls_back_silently
    (svc : PDFJSExtractorService) props g st online :
  mountedOf g st = true →
  generatePDFExtractorHTMLOnline (pdfBase64 props) = Normal online →
  loadHTML props g st
  = (Normal tt, (set_loading false (set_html (chosenHtml props online) st), [])).
Proof.
  intros Hm Hon. unfold loadHTML, generateHtml, chosenHtml, tryCatch, bind, get, call.
  destruct (forceOnline props); simpl.
  - rewrite Hon. simpl. by rewrite Hm.
  - destruct (generatePDFExtractorHTMLOffline (pdfBase64 props)); simpl.
    + by rewrite Hm.
    + rewrite Hon. simpl. by rewrite Hm.
Qed.

Lemma offline_failure_falls_back_silently_witness :
  let props := {| pdfBase64 := lit "JVBERi0x"; forceOnline := false |} in
  let st := (@run exampleService props [Mount] initial).2.1 in
  mountedOf 0 st = true
  ∧ @loadHTML exampleService props 0 st
    = (Normal tt,
       (set_loading false (set_html (lit "<html>JVBERi0x") st), [])).
Proof.
  intros props st.
  assert (mountedOf 0 st = true) as Hm by reflexivity.
  split; [exact Hm|].
  exact (offline_failure_falls_back_silently exampleService props 0 st
           (lit "<html>JVBERi0x") Hm eq_refl).
Defined.

(** X8.  When a fresh component cannot generate its page (the CDN
    generator throws, and the bundled one too unless [forceOnline]), the
    ingestion calls [onExtracted] exactly once, with the initialization
    failure: the [WebView] is never rendered, so none of its messages or
    errors reaches a handler afterwards. *)
Theorem init_failure_is_the_only_callback
    (svc : PDFJSExtractorService) props e evs :
  generatePDFExtractorHTMLOnline (pdfBase64 props) = Throw e →
  (forceOnline props = true
   ∨ ∃ e', generatePDFExtractorHTMLOffline (pdfBase64 props) = Throw e') →
  Forall fromWebView evs →
  callbacks (run props (Mount :: LoadHTML 0 :: evs) initial).2.2
  = [failed (lit "Failed to initialize PDF.js: " ++ message e)].
Proof.
  intros Hon Hoff Hevs.
  change (run props (Mount :: LoadHTML 0 :: evs))
    with (bind mountEffect (λ _, bind (loadHTML props 0) (λ _, run props evs))).
  unfold bind at 1, mountEffect, modify. cbv beta iota.
  set (st := set_loadError None _).
  assert (generateHtml props st = (Throw e, (st, []))) as Hg.
  { unfold generateHtml, tryCatch, call.
    destruct (forceOnline props); simpl.
    - by rewrite Hon.
    - destruct Hoff as [?|[e' He']]; [done|].
      rewrite He'. simpl. by rewrite Hon. }
  unfold bind at 1, loadHTML, tryCatch, bind, get. rewrite Hg. simpl.
  rewrite run_unrendered; [reflexivity | | done].
  unfold webViewRendered. simpl. apply andb_false_r.
Qed.

Lemma init_failure_is_the_only_callback_witness :
  let props := {| pdfBase64 := lit "JVBERi0x"; forceOnline := true |} in
  let evs := [Message (lit "{}"); WebViewError None] in
  Forall fromWebView evs
  ∧ callbacks (@run brokenService props (Mount :: LoadHTML 0 :: evs) initial).2.2
    = [failed (lit "Failed to initialize PDF.js: " ++ lit "Out of memory")].
Proof.
  intros props evs.
  assert (Forall fromWebView evs) as Hevs by (repeat constructor).
  split; [exact Hevs|].
  exact (init_failure_is_the_only_callback brokenService props
           {| message := lit "Out of memory" |} evs eq_refl (or_introl eq_refl) Hevs).
Defined.

(** X9.  Within one ingestion by a fresh component, [onExtracted] is
    called at most once as long as no message is rejected by
    [parseExtractionResult]: however many messages and [WebView] errors
    follow the page load, in whatever order. *)
Theorem parsable_ingestion_calls_back_once
    (svc : PDFJSExtractorService) props evs :
  Forall parsable evs →
  length (callbacks (run props (Mount :: LoadHTML 0 :: evs) initial).2.2) ≤ 1.
Proof.
  intros Hevs.
  change (run props (Mount :: LoadHTML 0 :: evs))
    with (bind mountEffect (λ _, bind (loadHTML props 0) (λ _, run props evs))).
  unfold bind at 1, mountEffect, modify. cbv beta iota.
  set (st := set_loadError None _).
  pose proof (loadHTML_normal props 0 st) as Hn.
  assert (loadHTML props 0 st = (Normal tt, ((loadHTML props 0 st).2.1, []))
            ∧ hasExtracted (loadHTML props 0 st).2.1 = false
          ∨ ∃ r, loadHTML props 0 st
                 = (Normal tt, ((loadHTML props 0 st).2.1, [OnExtracted r]))
               ∧ webViewRendered (loadHTML props 0 st).2.1 = false) as Hl.
  { unfold loadHTML, tryCatch, bind, get.
    pose proof (generateHtml_pure props st) as Hp.
    destruct (generateHtml props st) as [[h|e] [st1 out1]]; simpl in *;
      injection Hp as -> ->; simpl.
    - left. done.
    - right. eexists. split; [reflexivity|]. simpl.
      unfold webViewRendered. simpl. by rewrite andb_false_r. }
  unfold bind at 1.
  destruct Hl as [[Hl Hx] | (r & Hl & Hw)]; rewrite Hl;
    set (st1 := (loadHTML props 0 st).2.1) in *.
  - pose proof (run_parsable props evs Hevs st1) as Hr. rewrite Hx in Hr.
    destruct (run props evs st1) as [c [st2 out2]]; simpl in *. lia.
  - rewrite run_unrendered by (by apply parsable_fromWebView || done).
    simpl. lia.
Qed.

Lemma parsable_ingestion_calls_back_once_witness :
  let props := {| pdfBase64 := lit "JVBERi0x"; forceOnline := false |} in
  let evs := [Message (lit "{a}"); WebViewError None; Message (lit "{b}")] in
  @Forall _ (@parsable exampleService) evs
  ∧ length (callbacks
              (@run exampleService props (Mount :: LoadHTML 0 :: evs) initial).2.2) ≤ 1.
Proof.
  intros props evs.
  assert (@Forall _ (@parsable exampleService) evs) as Hevs.
  { repeat constructor; eexists; reflexivity. }
  split; [exact Hevs|].
  exact (parsable_ingestion_calls_back_once exampleService props evs Hevs).
Defined.

(** X10.  A message that [parseExtractionResult] accepts, reaching a
    rendered component that has not extracted yet, is delivered to
    [onExtracted] unchanged, and it is the last callback: every later
    message or error of the [WebView] is suppressed by the guard. *)
Theorem parsed_result_is_delivered_once
    (svc : PDFJSExtractorService) props data r evs st :
  webViewRendered st = true → hasExtracted st = false →
  parseExtractionResult data = Normal r → Forall fromWebView evs →
  callbacks (run props (Message data :: evs) st).2.2 = [r]
  ∧ hasExtracted (run props (Message data :: evs) st).2.1 = true.
Proof.
  intros Hw Hx Hp Hevs.
  assert (run props (Message data :: evs) st
          = (Normal tt, (set_hasExtracted true st, [OnExtracted r]))) as ->.
  { change (run props (Message data :: evs))
      with (bind (step props (Message data)) (λ _, run props evs)).
    unfold bind at 1.
    assert (step props (Message data) st
            = (Normal tt, (set_hasExtracted true st, [OnExtracted r]))) as ->.
    { unfold step, handleMessage, tryCatch, bind, get, call. simpl.
      by rewrite Hw, Hx, Hp. }
    by rewrite run_after_extraction. }
  done.
Qed.

Lemma parsed_result_is_delivered_once_witness :
  let props := {| pdfBase64 := lit "JVBERi0x"; forceOnline := false |} in
  let st := (@run exampleService props [Mount; LoadHTML 0] initial).2.1 in
  let evs := [Message (lit "<html>"); WebViewError None; Message (lit "{later}")] in
  webViewRendered st = true ∧ hasExtracted st = false ∧ Forall fromWebView evs
  ∧ callbacks (@run exampleService props (Message (lit "{first}") :: evs) st).2.2
    = [ {| success := true; text := lit "{first}"; error := None; charCount := 7 |} ].
Proof.
  intros props st evs.
  assert (webViewRendered st = true) as Hw by reflexivity.
  assert (hasExtracted st = false) as Hx by reflexivity.
  assert (Forall fromWebView evs) as Hevs by (repeat constructor).
  split; [exact Hw|]. split; [exact Hx|]. split; [exact Hevs|].
  exact (proj1 (parsed_result_is_delivered_once exampleService props
                  (lit "{first}") _ evs st Hw Hx eq_refl Hevs)).
Defined.

End ExtractorMore.

(** ** The screens *)

Section ScreensMore.
Import Js Screens Chat.
#[local] Arguments lit : simpl never.

Lemma String_of_nat_digits n :
  Forall (λ c, Rag.isDigit c = true) (String_of_nat n).
Proof. apply lit_digits. Qed.

Lemma String_of_nat_not_thinking n : String_of_nat n ≠ lit "thinking".
Proof.
  intros Heq. pose proof (String_of_nat_digits n) as Hd.
  rewrite Heq in Hd. apply Forall_cons in Hd as [Hd _]. vm_compute in Hd.
  discriminate Hd.
Qed.

Lemma startsWith_app pre s : JsText.startsWith (pre ++ s) pre = true.
Proof.
  induction pre as [|a pre IH]; simpl; [by destruct s|]. by rewrite N.eqb_refl.
Qed.

Lemma map_replace_none {A} (P : A → Prop) `{∀ x, Decision (P x)} (y : A) l :
  Forall (λ x, ¬ P x) l → (λ x, if decide (P x) then y else x) <$> l = l.
Proof.
  induction 1 as [|x l Hx _ IH]; [done|].
  rewrite fmap_cons, IH. by destruct (decide (P x)).
Qed.

Lemma filter_keep_all {A} (P : A → Prop) `{∀ x, Decision (P x)} (l : list A) :
  Forall P l → filter P l = l.
Proof.
  induction 1 as [|x l Hx _ IH]; [done|].
  by rewrite filter_cons_True, IH.
Qed.

(** X11.  Every failure the extractor reports (success false, empty
    text, a non-empty error message) is shown to the user of
    [pdf-qa.tsx] verbatim in the "PDF Extraction Issue" alert; nothing
    is created, and the clean-up unmounts the extractor and clears the
    spinner. *)
Theorem extractor_failure_reaches_the_user (svc : PDFQAService) r msg st :
  Extractor.isFailure r msg →
  PdfQa.handlePDFJSExtraction r st
  = (PdfQa.cleanUp st, [Alert (lit "PDF Extraction Issue") msg])
  ∧ PdfQaScreen.extractorMounted (PdfQa.handlePDFJSExtraction r st).1 = false
  ∧ PdfQa.processing (PdfQa.handlePDFJSExtraction r st).1 = false
  ∧ PdfQa.activeDoc (PdfQa.handlePDFJSExtraction r st).1 = PdfQa.activeDoc st.
Proof.
  intros (Hs & Ht & He & Hne).
  assert (PdfQa.handlePDFJSExtraction r st
          = (PdfQa.cleanUp st, [Alert (lit "PDF Extraction Issue") msg])) as ->.
  { unfold PdfQa.handlePDFJSExtraction. rewrite Hs, He. simpl.
    destruct msg; [done|]. reflexivity. }
  done.
Qed.

Lemma extractor_failure_reaches_the_user_witness :
  let r := Extractor.failed (lit "Failed to parse extraction result") in
  let st := {| PdfQa.activeDoc := None; PdfQa.processing := true;
               PdfQa.pdfBase64 := Some (lit "JVBERi0x");
               PdfQa.pendingPdfName := lit "notes.pdf" |} in
  Extractor.isFailure r (lit "Failed to parse extraction result")
  ∧ @PdfQa.handlePDFJSExtraction exampleQAService r st
    = (PdfQa.cleanUp st,
       [Alert (lit "PDF Extraction Issue") (lit "Failed to parse extraction result")]).
Proof.
  intros r st.
  assert (Extractor.isFailure r (lit "Failed to parse extraction result")) as Hf
    by (repeat split; discriminate).
  split; [exact Hf|].
  exact (proj1 (extractor_failure_reaches_the_user exampleQAService r _ st Hf)).
Defined.

(** X12.  [handlePasteTextSubmit] submits the pasted text (as "Pasted
    Document") exactly when it has a character that is not white space
    and at least 50 code units, and a submission ends with [processing]
    off; otherwise it only shows the alert and changes nothing,
    [processing] included.  A text of exactly 50 code units is accepted
    here although the same text as a structured extraction result is not
    viable. *)
Theorem paste_accepts_fifty_characters (svc : PDFQAService)
    (st : PdfQaScreen.State) :
  let out := PdfQaScreen.handlePasteTextSubmit st in
  let text := PdfQaScreen.pastedText st in
  (Forall (λ c, isWhiteSpace c = true) text ∨ length text < 50 →
     out = (st, [Alert (lit "Error")
                       (lit "Please paste at least 50 characters of text.")]))
  ∧ (Exists (λ c, isWhiteSpace c = false) text → 50 ≤ length text →
       accepted out.2 = [text]
       ∧ PdfQa.processing (PdfQaScreen.core out.1) = false
       ∧ ∀ doc, createFromText text (lit "Pasted Document") = Normal doc →
           out.2 = [CreateFromText text (lit "Pasted Document")]
           ∧ PdfQa.activeDoc (PdfQaScreen.core out.1) = Some doc
           ∧ PdfQaScreen.showPasteMode out.1 = false
           ∧ PdfQaScreen.pastedText out.1 = [])
  ∧ (length text = 50 →
       ∀ r, Extractor.text r = text → viable r = false).
Proof.
  intros out text. subst out text. unfold PdfQaScreen.handlePasteTextSubmit.
  split; [|split].
  - intros Hbad.
    assert (negb (truthy (trim (PdfQaScreen.pastedText st)))
            || (length (PdfQaScreen.pastedText st) <? 50) = true) as ->; [|done].
    destruct Hbad as [Hb|Hlen].
    + apply trim_blank in Hb. by rewrite Hb.
    + apply Nat.ltb_lt in Hlen. rewrite Hlen. apply orb_true_r.
  - intros Hex Hlen.
    assert (truthy (trim (PdfQaScreen.pastedText st)) = true) as ->.
    { destruct (truthy _) eqn:Ht; [done|].
      apply trim_blank in Ht. apply Exists_exists in Hex as (c & Hin & Hw).
      rewrite Forall_forall in Ht. specialize (Ht c Hin). congruence. }
    assert ((length (PdfQaScreen.pastedText st) <? 50) = false) as ->
      by (apply Nat.ltb_ge; lia).
    simpl.
    destruct (createFromText _ _) as [doc|e]; simpl.
    + split; [done|]. split; [done|]. intros doc' [= <-]. done.
    + split; [done|]. split; [done|]. intros doc' Hd. discriminate Hd.
  - intros Hlen r Hr. unfold viable. rewrite Hr, Hlen. apply andb_false_r.
Qed.

(** X13.  [handleCameraScan] ends with [processing] off on every path
    (denied permission, cancelled capture, too little text, any thrown
    error) and never throws.  It hands a text to [createFromText], as
    "Scanned Document", exactly when permission is granted, a photo was
    taken, and OCR returned at least 30 code units. *)
Theorem camera_scan_always_clears_processing
    (svc : PDFQAService) (cam : PdfQaScreen.CameraServices)
    (st : PdfQaScreen.State) :
  let out := PdfQaScreen.handleCameraScan st in
  PdfQa.processing (PdfQaScreen.core out.1) = false
  ∧ (∀ t, t ∈ accepted out.2 →
       ∃ uri ocr,
         PdfQaScreen.requestCameraPermissions = Normal true
         ∧ PdfQaScreen.launchCamera = Normal (Some uri)
         ∧ PdfQaScreen.extractTextFromImage uri = Normal ocr
         ∧ t = PdfQaScreen.ocrText ocr ∧ 30 ≤ length t)
  ∧ (∀ uri ocr,
       PdfQaScreen.requestCameraPermissions = Normal true →
       PdfQaScreen.launchCamera = Normal (Some uri) →
       PdfQaScreen.extractTextFromImage uri = Normal ocr →
       30 ≤ length (PdfQaScreen.ocrText ocr) →
       accepted out.2 = [PdfQaScreen.ocrText ocr]
       ∧ ∀ doc, createFromText (PdfQaScreen.ocrText ocr) (lit "Scanned Document")
                = Normal doc →
           PdfQa.activeDoc (PdfQaScreen.core out.1) = Some doc)
  ∧ (accepted out.2 = [] →
       PdfQa.activeDoc (PdfQaScreen.core out.1) = PdfQa.activeDoc (PdfQaScreen.core st)).
Proof.
  intros out. subst out. unfold PdfQaScreen.handleCameraScan, PdfQaScreen.scanFailed.
  destruct PdfQaScreen.requestCameraPermissions as [[|]|e] eqn:Hperm; simpl.
  1: destruct PdfQaScreen.launchCamera as [[uri|]|e] eqn:Hcam; simpl.
  1: destruct (PdfQaScreen.extractTextFromImage uri) as [ocr|e] eqn:Hocr; simpl.
  1: destruct (length (PdfQaScreen.ocrText ocr) <? 30) eqn:Hlen; simpl; bool_hyps.
  2: destruct (createFromText _ _) as [doc|e] eqn:Hdoc; simpl.
  all: split; [done|].
  all: split; [intros t Ht|].
  all: try (by inversion Ht).
  all: try (apply list_elem_of_singleton in Ht as ->; by eauto 10).
  all: split; [|done].
  all: intros uri' ocr' Hp' Hc' Ho' Hl'; simplify_eq.
  all: try (rewrite Hocr in Ho'; simplify_eq).
  all: try lia.
  all: split; [done|]; intros doc' Hd'; rewrite Hdoc in Hd'; by simplify_eq.
Qed.

(** X14.  A send on [pdf-qa.tsx] (a document is active, the input is
    not blank, the model is ready, no placeholder is left in the
    conversation) issues one request with the trimmed input and the
    document's id and clears the input.  When the answer arrives the
    conversation is the old one followed by the user's message and the
    answer with its "Page N" sources; when the request fails it is the
    old one followed by the user's message, and one alert is shown.
    Either way no placeholder remains. *)
Theorem send_appends_question_and_answer now now' outcome doc
    (st : PdfQaScreen.State) :
  PdfQa.activeDoc (PdfQaScreen.core st) = Some doc →
  Exists (λ c, isWhiteSpace c = false) (PdfQaScreen.inputText st) →
  Forall (λ msg, id msg ≠ lit "thinking") (PdfQaScreen.messages st) →
  let q := trim (PdfQaScreen.inputText st) in
  let started := PdfQaScreen.handleSend_start true now st in
  let finished := PdfQaScreen.handleSend_finish now' outcome started.1.1 in
  started.2 = Some {| PdfQaScreen.question := q;
                      PdfQaScreen.documentId := Screens.id doc |}
  ∧ started.1.2 = []
  ∧ PdfQaScreen.inputText finished.1 = []
  ∧ Forall (λ msg, id msg ≠ lit "thinking") (PdfQaScreen.messages finished.1)
  ∧ match outcome with
    | Normal response =>
        PdfQaScreen.messages finished.1
        = PdfQaScreen.messages st
          ++ [userMessage now q;
              {| id := String_of_nat now'; role := Assistant;
                 content := answer response;
                 sources := Some ((λ page, lit "Page " ++ String_of_nat page)
                                  <$> sourcePages response) |}]
        ∧ finished.2 = []
    | Throw e =>
        PdfQaScreen.messages finished.1
        = PdfQaScreen.messages st ++ [userMessage now q]
        ∧ finished.2 = [Alert (lit "Error")
                              (lit "Failed to get answer: " ++ message e)]
    end.
Proof.
  intros Hdoc Hex Hno q started finished. subst q started finished.
  unfold PdfQaScreen.handleSend_start. rewrite Hdoc.
  assert (truthy (trim (PdfQaScreen.inputText st)) = true) as ->.
  { destruct (truthy _) eqn:Ht; [done|].
    apply trim_blank in Ht. apply Exists_exists in Hex as (c & Hin & Hw).
    rewrite Forall_forall in Ht. specialize (Ht c Hin). congruence. }
  cbn [negb fst snd].
  split; [done|]. split; [done|].
  pose proof (String_of_nat_not_thinking now) as Hnow.
  pose proof (String_of_nat_not_thinking now') as Hnow'.
  destruct outcome as [response|e]; cbn [PdfQaScreen.handleSend_finish fst snd
    PdfQaScreen.set_messages PdfQaScreen.set_inputText PdfQaScreen.messages
    PdfQaScreen.inputText].
  - rewrite !fmap_app.
    rewrite (map_replace_none (λ msg, id msg = lit "thinking")) by done.
    cbn [fmap list_fmap userMessage PdfQaScreen.thinking id].
    destruct (decide (String_of_nat now = lit "thinking")) as [?|_]; [done|].
    destruct (decide (lit "thinking" = lit "thinking")) as [_|?]; [|done].
    split; [done|]. split.
    + rewrite Forall_app. split; [done|]. by repeat constructor.
    + done.
  - rewrite !filter_app.
    rewrite (filter_keep_all (λ msg, id msg ≠ lit "thinking")) by done.
    rewrite filter_cons_True by done. rewrite filter_cons_False by (intros H; by apply H).
    rewrite filter_nil.
    split; [done|]. split.
    + rewrite Forall_app. split; [done|]. by repeat constructor.
    + done.
Qed.

Lemma send_appends_question_and_answer_witness :
  let doc := {| Screens.id := lit "doc-1"; name := lit "bio.pdf"; pageCount := 3;
                size := 2048 |} in
  let st :=
    {| PdfQaScreen.core :=
         {| PdfQa.activeDoc := Some doc; PdfQa.processing := false;
            PdfQa.pdfBase64 := None; PdfQa.pendingPdfName := [] |};
       PdfQaScreen.messages := [PdfQaScreen.systemMessage (lit "Ready")];
       PdfQaScreen.inputText := lit "  What is a cell? ";
       PdfQaScreen.showPasteMode := false;
       PdfQaScreen.pastedText := [] |} in
  let response := {| answer := lit "The unit of life."; sourcePages := [2; 3] |} in
  Exists (λ c, isWhiteSpace c = false) (PdfQaScreen.inputText st)
  ∧ Forall (λ msg, id msg ≠ lit "thinking") (PdfQaScreen.messages st)
  ∧ PdfQaScreen.messages
      (PdfQaScreen.handleSend_finish 1500 (Normal response)
         (PdfQaScreen.handleSend_start true 1000 st).1.1).1
    = [PdfQaScreen.systemMessage (lit "Ready");
       userMessage 1000 (lit "What is a cell?");
       {| id := lit "1500"; role := Assistant;
          content := lit "The unit of life.";
          sources := Some [lit "Page 2"; lit "Page 3"] |}].
Proof.
  intros doc st response.
  assert (Exists (λ c, isWhiteSpace c = false) (PdfQaScreen.inputText st)) as Hex.
  { apply Exists_cons_tl, Exists_cons_tl, Exists_cons_hd. reflexivity. }
  assert (Forall (λ msg, id msg ≠ lit "thinking") (PdfQaScreen.messages st)) as Hno.
  { repeat constructor. discriminate. }
  split; [exact Hex|]. split; [exact Hno|].
  pose proof (send_appends_question_and_answer 1000 1500
                (Normal response) doc st eq_refl Hex Hno) as Hsend.
  cbv zeta in Hsend. destruct Hsend as (_ & _ & _ & _ & Hmsgs & _).
  rewrite Hmsgs. vm_compute. reflexivity.
Defined.

(** X15.  On the Ask screen an answer replaces exactly the placeholder of
    its own send and touches no other message.  A failed send removes
    every placeholder, those of other sends still in flight included, so
    that the answer of such a send, when it arrives, changes nothing; the
    alert reads "Document expired..." when the error message contains
    "not found". *)
Theorem ask_send_replaces_its_own_placeholder (st : AskScreen.ChatState) :
  (∀ now' now response before after,
     AskScreen.messages st = before ++ [AskScreen.searching now'] ++ after →
     Forall (λ msg, id msg ≠ AskScreen.thinkingId now') (before ++ after) →
     AskScreen.messages
       (AskScreen.handleSend_finish now' now (Normal response) st).1
     = before ++ [answerMessage now response] ++ after)
  ∧ (∀ now' now e,
       let failed := AskScreen.handleSend_finish now' now (Throw e) st in
       Forall (λ msg, JsText.startsWith (id msg) (lit "thinking-") = false)
         (AskScreen.messages failed.1)
       ∧ failed.2
         = [Alert (lit "Error")
              (if JsText.includes (message e) (lit "not found")
               then lit "Document expired. Please upload the PDF again."
               else lit "Unable to answer: " ++ message e)]
       ∧ ∀ other now2 response,
           AskScreen.messages
             (AskScreen.handleSend_finish other now2 (Normal response) failed.1).1
           = AskScreen.messages failed.1).
Proof.
  split.
  - intros now' now response before after Hmsgs Hno.
    apply Forall_app in Hno as [Hb Ha].
    unfold AskScreen.handleSend_finish.
    cbn [fst AskScreen.messages]. rewrite Hmsgs, !fmap_app.
    rewrite (map_replace_none (λ msg, id msg = AskScreen.thinkingId now') _ before)
      by done.
    rewrite (map_replace_none (λ msg, id msg = AskScreen.thinkingId now') _ after)
      by done.
    cbn [fmap list_fmap AskScreen.searching id].
    by destruct (decide (AskScreen.thinkingId now' = AskScreen.thinkingId now')).
  - intros now' now e failed. subst failed.
    unfold AskScreen.handleSend_finish, AskScreen.userFriendlyError.
    cbn [fst snd AskScreen.messages].
    assert (Forall (λ msg, JsText.startsWith (id msg) (lit "thinking-") = false)
              (filter (λ msg, JsText.startsWith (id msg) (lit "thinking-") = false)
                 (AskScreen.messages st))) as Hclean.
    { apply Forall_forall. intros msg Hin. by apply list_elem_of_filter in Hin as [? _]. }
    split; [exact Hclean|]. split; [done|].
    intros other now2 response.
    apply map_replace_none.
    eapply Forall_impl; [exact Hclean|]. simpl. intros msg Hs Hid.
    rewrite Hid in Hs. unfold AskScreen.thinkingId in Hs.
    by rewrite startsWith_app in Hs.
Qed.

Example includes_not_found :
  JsText.includes (lit "Document abc not found in store") (lit "not found") = true
  ∧ JsText.includes (lit "Not Found") (lit "not found") = false
  ∧ JsText.includes (lit "timeout") (lit "not found") = false.
Proof. vm_compute. done. Qed.

(** X16.  The OCR fallback end to end on the Ask screen: when
    [needsOCRFallback] sends a structured result to the fallback and a
    PDF path is pending, the OCR component is mounted with a cap of 10
    pages; its pass over the document ends in one result, and
    [handleOCRComplete] then unmounts the component and clears the
    spinner, creating the document from the joined page entries when
    they are longer than 50 code units and otherwise showing "Extraction
    Failed" with the component's message, the active document left as it
    was. *)
Theorem ocr_fallback_end_to_end (svc : PDFQAService) needsOCRFallback
    result st n outcomes fuel :
  needsOCRFallback result = true →
  truthy (Ask.pendingPdfUri st) = true →
  1 ≤ n → Nat.min n Ask.ocrMaxPages ≤ fuel →
  let st1 := (Ask.handlePDFJSExtraction needsOCRFallback result st).1 in
  let combined :=
    join [10; 10]%N
      (OCRFallback.contributions outcomes (seq 1 (Nat.min n Ask.ocrMaxPages))) in
  Ask.ocrFallbackMounted st1 = true
  ∧ AskScreen.extractorMounted st1 = false
  ∧ ∃ r, OCRFallback.completions
           (OCRFallback.session Ask.ocrMaxPages n outcomes fuel).2 = [r]
       ∧ let out := AskScreen.handleOCRComplete r st1 in
         Ask.ocrFallbackMounted out.1 = false
         ∧ Ask.processing out.1 = false
         ∧ if 50 <? length combined
           then accepted out.2 = [combined]
                ∧ ∀ doc, createFromText combined (Ask.pendingPdfName st) = Normal doc →
                    Ask.activeDoc out.1 = Some doc
           else out.2 = [Alert (lit "Extraction Failed")
                           (lit "OCR could not extract meaningful text from the PDF")]
                ∧ Ask.activeDoc out.1 = Ask.activeDoc st.
Proof.
  intros Hneeds Huri Hn Hf st1 combined. subst st1.
  unfold Ask.handlePDFJSExtraction. rewrite Hneeds. cbn [fst].
  split; [unfold Ask.ocrFallbackMounted; simpl; by rewrite Huri|].
  split; [done|].
  rewrite session_pages by (unfold Ask.ocrMaxPages in *; lia). cbv zeta.
  unfold OCRFallback.finishExtraction. cbn [OCRFallback.hasCompleted
    OCRFallback.betweenPages OCRFallback.extractedTexts snd].
  rewrite completions_pass. fold combined.
  eexists. split; [reflexivity|].
  unfold AskScreen.handleOCRComplete.
  cbn [OCRFallback.success OCRFallback.text OCRFallback.error].
  destruct (50 <? length combined) eqn:Hlen; cbn [andb].
  - change (Ask.pendingPdfName (Ask.triggerOCR st)) with (Ask.pendingPdfName st).
    destruct (createFromText combined (Ask.pendingPdfName st)) as [doc|e];
      cbn [fst snd]; repeat split; try done. intros doc' [= <-]. done.
  - cbn [fst snd orElse truthy]. repeat split; done.
Qed.

Lemma ocr_fallback_end_to_end_witness :
  let result := Extractor.failed (lit "No text layer") in
  let st :=
    {| Ask.activeDoc := None; Ask.processing := true;
       Ask.pdfBase64 := Some (lit "JVBERi0x"); Ask.pendingPdfName := lit "scan.pdf";
       Ask.pendingPdfUri := lit "file:///scan.pdf"; Ask.useOCRFallback := false |} in
  Ask.needsOCRFallback_spec result = true
  ∧ truthy (Ask.pendingPdfUri st) = true
  ∧ 1 ≤ 2 ∧ Nat.min 2 Ask.ocrMaxPages ≤ 2
  ∧ Ask.ocrFallbackMounted
      (@Ask.handlePDFJSExtraction exampleQAService Ask.needsOCRFallback_spec
         result st).1 = true.
Proof.
  intros result st.
  assert (Ask.needsOCRFallback_spec result = true) as H1 by reflexivity.
  assert (truthy (Ask.pendingPdfUri st) = true) as H2 by reflexivity.
  assert (1 ≤ 2) as H3 by lia.
  assert (Nat.min 2 Ask.ocrMaxPages ≤ 2) as H4 by (vm_compute; lia).
  split; [exact H1|]. split; [exact H2|]. split; [exact H3|]. split; [exact H4|].
  exact (proj1 (ocr_fallback_end_to_end exampleQAService Ask.needsOCRFallback_spec
                  result st 2 (λ _, OCRFallback.NoViewShot) 2 H1 H2 H3 H4)).
Defined.

(** X17.  A render error of the OCR component reaches the user of the Ask
    screen: the failure result of [handleError] makes
    [handleOCRComplete] show "Extraction Failed" with the render error's
    message, create nothing, and unmount the component. *)
Theorem ocr_render_error_reaches_the_user (svc : PDFQAService) maxPages m
    (ocr : OCRFallback.State) (st : Ask.State) :
  OCRFallback.hasCompleted ocr = false →
  ∃ r, (OCRFallback.step maxPages ocr (OCRFallback.PdfError m)).2
       = [OCRFallback.OnComplete r]
     ∧ AskScreen.handleOCRComplete r st
       = (AskScreen.cleanUpOCR st,
          [Alert (lit "Extraction Failed")
             (lit "Failed to render PDF for OCR: "
              ++ orElse m (lit "Unknown error"))])
     ∧ Ask.ocrFallbackMounted (AskScreen.handleOCRComplete r st).1 = false.
Proof.
  intros Hc.
  unfold OCRFallback.step, OCRFallback.handle, OCRFallback.handleError.
  rewrite Hc. unfold OCRFallback.depsChanged.
  cbn [OCRFallback.set_hasCompleted OCRFallback.pageReady OCRFallback.currentPage
       OCRFallback.totalPages].
  rewrite eqb_reflx, !Nat.eqb_refl. cbn [andb negb snd].
  eexists. split; [reflexivity|].
  unfold AskScreen.handleOCRComplete.
  cbn [OCRFallback.success OCRFallback.text OCRFallback.error andb orElse].
  assert (truthy (lit "Failed to render PDF for OCR: "
                  ++ orElse m (lit "Unknown error")) = true) as -> by reflexivity.
  done.
Qed.

Lemma ocr_render_error_reaches_the_user_witness :
  let st :=
    {| Ask.activeDoc := None; Ask.processing := true; Ask.pdfBase64 := None;
       Ask.pendingPdfName := lit "scan.pdf";
       Ask.pendingPdfUri := lit "file:///scan.pdf"; Ask.useOCRFallback := true |} in
  OCRFallback.hasCompleted OCRFallback.initial = false
  ∧ ∃ r, (OCRFallback.step 10 OCRFallback.initial (OCRFallback.PdfError None)).2
         = [OCRFallback.OnComplete r]
       ∧ @AskScreen.handleOCRComplete exampleQAService r st
         = (AskScreen.cleanUpOCR st,
            [Alert (lit "Extraction Failed")
               (lit "Failed to render PDF for OCR: "
                ++ orElse None (lit "Unknown error"))])
       ∧ Ask.ocrFallbackMounted
           (@AskScreen.handleOCRComplete exampleQAService r st).1 = false.
Proof.
  intros st.
  assert (OCRFallback.hasCompleted OCRFallback.initial = false) as Hc by reflexivity.
  split; [exact Hc|].
  exact (ocr_render_error_reaches_the_user exampleQAService 10 None
           OCRFallback.initial st Hc).
Defined.

(** X18.  Picking a PDF on the Document Q&A screen, end to end: once the
    picker returns a file whose bytes can be read, the screen shows the
    spinner and mounts the extractor on those bytes; when the page is
    generated (bundled, or from the CDN after the bundled generator
    failed) and the WebView posts a message that parses, the
    extractor calls back exactly once, with the parsed result, whatever
    the WebView sends afterwards; the handler then unmounts the
    extractor and clears the spinner, and it creates a document, under
    the picked file's name, exactly when the result succeeded with more
    than 50 code units of text. *)
Theorem picked_pdf_end_to_end
    (svc : PDFQAService) (ex : Extractor.PDFJSExtractorService)
    (docs : PdfQaScreen.DocumentServices) name uri base64 html data r evs c :
  PdfQaScreen.getDocumentAsync = Normal (PdfQaScreen.Picked name uri) →
  PdfQaScreen.readPDFAsBase64 uri = Normal base64 →
  truthy base64 = true →
  (Extractor.generatePDFExtractorHTMLOffline base64 = Normal html
   ∨ (∃ e, Extractor.generatePDFExtractorHTMLOffline base64 = Throw e)
     ∧ Extractor.generatePDFExtractorHTMLOnline base64 = Normal html) →
  truthy html = true →
  Extractor.parseExtractionResult data = Normal r →
  Forall Extractor.fromWebView evs →
  let c1 := (PdfQaScreen.handlePickDocument c).1 in
  let props := {| Extractor.pdfBase64 := base64; Extractor.forceOnline := false |} in
  let out := PdfQa.handlePDFJSExtraction r c1 in
  PdfQa.processing c1 = true
  ∧ PdfQaScreen.extractorMounted c1 = true
  ∧ PdfQa.pdfBase64 c1 = Some base64
  ∧ Extractor.callbacks
      (Extractor.run props
         (Extractor.Mount :: Extractor.LoadHTML 0 :: Extractor.Message data :: evs)
         Extractor.initial).2.2 = [r]
  ∧ PdfQaScreen.extractorMounted out.1 = false
  ∧ PdfQa.processing out.1 = false
  ∧ if Extractor.success r && (50 <? length (Extractor.text r))
    then head out.2 = Some (CreateFromText (Extractor.text r) name)
         ∧ accepted out.2 = [Extractor.text r]
    else accepted out.2 = [] ∧ PdfQa.activeDoc out.1 = PdfQa.activeDoc c.
Proof.
  intros Hpick Hread Hb Hgen Hhtml Hparse Hevs c1 props out.
  assert (c1 = {| PdfQa.activeDoc := PdfQa.activeDoc c; PdfQa.processing := true;
                  PdfQa.pdfBase64 := Some base64; PdfQa.pendingPdfName := name |})
    as Hc1.
  { subst c1. unfold PdfQaScreen.handlePickDocument. by rewrite Hpick, Hread. }
  split; [by rewrite Hc1|].
  split; [rewrite Hc1; exact Hb|].
  split; [by rewrite Hc1|].
  split.
  { change (Extractor.run props
              (Extractor.Mount :: Extractor.LoadHTML 0 :: Extractor.Message data :: evs))
      with (Extractor.bind Extractor.mountEffect
              (λ _, Extractor.bind (Extractor.loadHTML props 0)
                      (λ _, Extractor.bind
                              (Extractor.step props (Extractor.Message data))
                              (λ _, Extractor.run props evs)))).
    unfold Extractor.bind at 1, Extractor.mountEffect, Extractor.modify.
    cbv beta iota.
    set (st := Extractor.set_loadError None _).
    assert (Extractor.generateHtml props st = (Normal html, (st, []))) as Hg.
    { unfold Extractor.generateHtml, Extractor.tryCatch, Extractor.call. simpl.
      destruct Hgen as [Hoff|[[e Hoff] Hon]]; rewrite Hoff; [done|].
      simpl. by rewrite Hon. }
    set (st2 := Extractor.set_loading false (Extractor.set_html html st)).
    assert (Extractor.loadHTML props 0 st = (Normal tt, (st2, []))) as Hl.
    { unfold Extractor.loadHTML, Extractor.tryCatch, Extractor.bind at 1.
      by rewrite Hg. }
    assert (Extractor.webViewRendered st2 = true) as Hw.
    { unfold Extractor.webViewRendered. simpl. by rewrite Hhtml. }
    assert (Extractor.hasExtracted st2 = false) as Hx by done.
    clearbody st2.
    assert (Extractor.step props (Extractor.Message data) st2
            = (Normal tt, (Extractor.set_hasExtracted true st2,
                           [Extractor.OnExtracted r]))) as Hstep.
    { unfold Extractor.step, Extractor.handleMessage, Extractor.tryCatch,
        Extractor.bind, Extractor.get, Extractor.call. simpl.
      by rewrite Hw, Hx, Hparse. }
    unfold Extractor.bind at 1. rewrite Hl. cbv beta iota.
    unfold Extractor.bind at 1. rewrite Hstep. cbv beta iota.
    by rewrite run_after_extraction. }
  subst out. rewrite Hc1. unfold PdfQa.handlePDFJSExtraction.
  cbn [PdfQa.pendingPdfName].
  destruct (Extractor.success r && (50 <? length (Extractor.text r))).
  - destruct (createFromText (Extractor.text r) name); by repeat split.
  - by repeat split.
Qed.

Lemma picked_pdf_end_to_end_witness :
  let docs :=
    {| PdfQaScreen.getDocumentAsync :=
         Normal (PdfQaScreen.Picked (lit "notes.pdf") (lit "file:///notes.pdf"));
       PdfQaScreen.readPDFAsBase64 _ := Normal (lit "JVBERi0x") |} in
  let c :=
    {| PdfQa.activeDoc := None; PdfQa.processing := false;
       PdfQa.pdfBase64 := None; PdfQa.pendingPdfName := [] |} in
  let props :=
    {| Extractor.pdfBase64 := lit "JVBERi0x"; Extractor.forceOnline := false |} in
  let evs := [Extractor.WebViewError None; Extractor.Message (lit "{again}")] in
  Forall (@Extractor.fromWebView) evs
  ∧ PdfQa.processing (@PdfQaScreen.handlePickDocument docs c).1 = true
  ∧ PdfQaScreen.extractorMounted (@PdfQaScreen.handlePickDocument docs c).1 = true
  ∧ PdfQa.pdfBase64 (@PdfQaScreen.handlePickDocument docs c).1
    = Some (lit "JVBERi0x")
  ∧ Extractor.callbacks
      (@Extractor.run Extractor.exampleService props
         (Extractor.Mount :: Extractor.LoadHTML 0
          :: Extractor.Message (lit "{text}") :: evs)
         Extractor.initial).2.2
    = [ {| Extractor.success := true; Extractor.text := lit "{text}";
           Extractor.error := None; Extractor.charCount := 6 |} ].
Proof.
  intros docs c props evs.
  assert (Forall (@Extractor.fromWebView) evs) as Hevs by (repeat constructor).
  split; [exact Hevs|].
  pose proof (picked_pdf_end_to_end exampleQAService Extractor.exampleService docs
                (lit "notes.pdf") (lit "file:///notes.pdf") (lit "JVBERi0x")
                (lit "<html>" ++ lit "JVBERi0x") (lit "{text}") _ evs c
                eq_refl eq_refl eq_refl
                (or_intror (conj (ex_intro _ _ eq_refl) eq_refl))
                eq_refl eq_refl Hevs) as H.
  cbv zeta in H.
  destruct H as (H1 & H2 & H3 & H4 & _).
  split; [exact H1|]. split; [exact H2|]. split; [exact H3|]. exact H4.
Defined.

(** X19.  [handlePickDocument] of the Ask screen never creates a
    document and never touches the active one.  Started with the spinner
    off, it leaves the spinner on only when a file was picked and its
    bytes were read, and then it has stored those bytes, the file's path
    and its name and has shown nothing; on every other path the stored
    bytes are what they were, and an alert is shown unless the picker was
    cancelled. *)
Theorem pick_spins_only_with_bytes
    (docs : PdfQaScreen.DocumentServices) (st : Ask.State) :
  let out := AskScreen.handlePickDocument st in
  accepted out.2 = []
  ∧ Ask.activeDoc out.1 = Ask.activeDoc st
  ∧ (Ask.processing st = false →
     if Ask.processing out.1
     then ∃ name uri base64,
            PdfQaScreen.getDocumentAsync = Normal (PdfQaScreen.Picked name uri)
            ∧ PdfQaScreen.readPDFAsBase64 uri = Normal base64
            ∧ Ask.pdfBase64 out.1 = Some base64
            ∧ Ask.pendingPdfUri out.1 = uri
            ∧ Ask.pendingPdfName out.1 = name
            ∧ out.2 = []
     else Ask.pdfBase64 out.1 = Ask.pdfBase64 st
          ∧ (out.2 = [] ↔ PdfQaScreen.getDocumentAsync = Normal PdfQaScreen.Canceled)).
Proof.
  intros out. subst out. unfold AskScreen.handlePickDocument.
  destruct PdfQaScreen.getDocumentAsync as [[|name uri]|e] eqn:Hpick.
  - cbn [fst snd]. repeat split; try done. intros Hp. rewrite Hp. done.
  - destruct (PdfQaScreen.readPDFAsBase64 uri) as [base64|e] eqn:Hread;
      cbn [fst snd Ask.processing Ask.activeDoc Ask.pdfBase64
           Ask.pendingPdfUri Ask.pendingPdfName].
    + repeat split; try done. intros _. by exists name, uri, base64.
    + repeat split; done.
  - cbn [fst snd]. repeat split; try done. intros Hp. rewrite Hp.
    repeat split; done.
Qed.

End ScreensMore.
